(** * Health-check chains of the Express / LangChain service (src/index.js)

    A shallow embedding of the response validators, the comprehensive
    health chain, the conditional response chain and the dependency
    endpoint, together with the properties the service documentation
    states about them.

    JavaScript strings are sequences of UTF-16 code units; the parts of
    the runtime that the source relies on ([trim], [toUpperCase],
    [includes], [join], template literals, [toISOString]) are written
    out after ECMA-262.  What the repository does not contain (the
    Unicode case table beyond ASCII, the printing of numbers, the text
    of engine error messages, the LangChain prompt formatter and the
    language model) is taken as a parameter. *)

From Stdlib Require Import List NArith ZArith Bool Ascii String Lia.
From Stdlib Require Import Floats.SpecFloat.
Import ListNotations.

Set Implicit Arguments.
Set Warnings "-register-all".

(** ** JavaScript strings *)

(** A string is the list of its UTF-16 code units. *)
Definition jsstring := list N.

(** ASCII literals of the source, as code units. *)
Definition js (s : string) : jsstring :=
  List.map N_of_ascii (list_ascii_of_string s).

Definition String_eqb (a b : jsstring) : bool :=
  if list_eq_dec N.eq_dec a b then true else false.

Lemma String_eqb_eq (a b : jsstring) : String_eqb a b = true <-> a = b.
Proof.
  unfold String_eqb. destruct (list_eq_dec N.eq_dec a b); split; congruence.
Qed.

Lemma String_eqb_neq (a b : jsstring) : String_eqb a b = false <-> a <> b.
Proof.
  unfold String_eqb. destruct (list_eq_dec N.eq_dec a b); split; congruence.
Qed.

Lemma String_eqb_spec (a b : jsstring) : reflect (a = b) (String_eqb a b).
Proof.
  unfold String_eqb. destruct (list_eq_dec N.eq_dec a b); constructor; assumption.
Qed.

(** *** String.prototype.trim

    ECMA-262 [TrimString]: strips WhiteSpace and LineTerminator code
    points from both ends.  All of them lie in the basic plane, so the
    test is on code units. *)
Definition isWhiteSpace (u : N) : bool :=
  match u with
  | 9 | 10 | 11 | 12 | 13 | 32 | 160 => true
  | 5760 => true                       (* U+1680 *)
  | 8232 | 8233 => true                (* U+2028, U+2029 *)
  | 8239 | 8287 | 12288 => true        (* U+202F, U+205F, U+3000 *)
  | 65279 => true                      (* U+FEFF *)
  | _ => (8192 <=? u) && (u <=? 8202)  (* U+2000 .. U+200A *)
  end%N.

Fixpoint trimStart (s : jsstring) : jsstring :=
  match s with
  | [] => []
  | u :: r => if isWhiteSpace u then trimStart r else s
  end.

Definition trimEnd (s : jsstring) : jsstring := rev (trimStart (rev s)).

Definition trim (s : jsstring) : jsstring := trimEnd (trimStart s).

(** [body] spells the lower-case ASCII word [pattern] in some casing. *)
Definition anyCasing (pattern body : jsstring) : Prop :=
  Forall2 (fun l c => c = l \/ c = (l - 32)%N) pattern body.

(** *** String.prototype.toUpperCase

    The string is read as code points (a high surrogate followed by a
    low surrogate is one code point, any other unit stands for itself),
    each code point is replaced by its upper-case mapping and the result
    is written back as code units. *)
Definition isHighSurrogate (u : N) : bool := ((55296 <=? u) && (u <=? 56319))%N.
Definition isLowSurrogate (u : N) : bool := ((56320 <=? u) && (u <=? 57343))%N.

Fixpoint codePoints (s : jsstring) : list N :=
  match s with
  | [] => []
  | u :: r =>
      match r with
      | l :: r' =>
          if isHighSurrogate u && isLowSurrogate l
          then (65536 + (u - 55296) * 1024 + (l - 56320))%N :: codePoints r'
          else u :: codePoints r
      | [] => [u]
      end
  end.

Definition codeUnits (cp : N) : jsstring :=
  if (cp <? 65536)%N then [cp]
  else [(55296 + (cp - 65536) / 1024)%N; (56320 + (cp - 65536) mod 1024)%N].

(** Upper case within ASCII. *)
Definition asciiUpper (c : N) : N :=
  if ((97 <=? c) && (c <=? 122))%N then (c - 32)%N else c.

(** ** Errors and results *)

Inductive JsError : Type :=
| Error (message : jsstring)       (* [new Error(message)] *)
| TypeError (message : jsstring).  (* raised by the engine *)

Definition errorMessage (e : JsError) : jsstring :=
  match e with Error m | TypeError m => m end.

Inductive Outcome (A : Type) : Type :=
| Return (a : A)
| Throw (e : JsError).
Arguments Return {A} a.
Arguments Throw {A} e.

Definition bindO {A B : Type} (o : Outcome A) (k : A -> Outcome B) : Outcome B :=
  match o with
  | Return a => k a
  | Throw e => Throw e
  end.

Notation "x <- e ;; k" := (bindO e (fun x => k))
  (at level 61, e at next level, right associativity).

(** ** Values

    The values that reach the chains are the ones [JSON.parse] builds
    (plus [undefined], the result of reading a property that is not
    there).  Numbers are IEEE-754 doubles, objects list their own
    properties in insertion order. *)
Inductive JsValue : Type :=
| JUndefined
| JNull
| JBool (b : bool)
| JNumber (x : spec_float)
| JString (s : jsstring)
| JArray (items : list JsValue)
| JObject (props : list (jsstring * JsValue)).

Definition numberOfZ (z : Z) : spec_float := binary_normalize 53 1024 z 0 false.

Fixpoint lookup (key : jsstring) (props : list (jsstring * JsValue)) : option JsValue :=
  match props with
  | [] => None
  | (k, v) :: r => if String_eqb k key then Some v else lookup key r
  end.

(** [ToBoolean]. *)
Definition ToBoolean (v : JsValue) : bool :=
  match v with
  | JUndefined | JNull => false
  | JBool b => b
  | JNumber (S754_zero _) | JNumber S754_nan => false
  | JNumber _ => true
  | JString s => match s with [] => false | _ => true end
  | JArray _ | JObject _ => true
  end.

Definition isArray (v : JsValue) : bool :=
  match v with JArray _ => true | _ => false end.

(** What the engine raises a [TypeError] for. *)
Inductive EngineFault : Type :=
| ReadOfNullish (v : JsValue) (key : jsstring)  (* [undefined.key], [null.key] *)
| NotAFunction (key : jsstring)                 (* [v.key(...)] with [v.key] not callable *)
| NotPrimitive.                                 (* an object with no usable [toString] *)

(** [Array.prototype.join] on an array of strings. *)
Fixpoint join (sep : jsstring) (xs : list jsstring) : jsstring :=
  match xs with
  | [] => []
  | x :: r => match r with [] => x | _ => x ++ sep ++ join sep r end
  end.

(** ** Date.prototype.toISOString

    The time value is the number of milliseconds since the epoch, in
    UTC.  ECMA-262 gives the fields of a time value as follows: the
    year is the one [y] with [DayFromYear y <= Day t < DayFromYear (y + 1)],
    month and day of the month are read off the day within the year. *)
Local Open Scope Z_scope.

Definition msPerDay : Z := 86400000.
Definition msPerHour : Z := 3600000.
Definition msPerMinute : Z := 60000.
Definition msPerSecond : Z := 1000.

Definition Day (t : Z) : Z := t / msPerDay.

Definition DayFromYear (y : Z) : Z :=
  365 * (y - 1970) + (y - 1969) / 4 - (y - 1901) / 100 + (y - 1601) / 400.

Definition InLeapYear (y : Z) : Z :=
  if (y mod 4 =? 0) && (negb (y mod 100 =? 0) || (y mod 400 =? 0)) then 1 else 0.

Definition MonthFromTime (dayWithinYear leap : Z) : Z :=
  if dayWithinYear <? 31 then 0
  else if dayWithinYear <? 59 + leap then 1
  else if dayWithinYear <? 90 + leap then 2
  else if dayWithinYear <? 120 + leap then 3
  else if dayWithinYear <? 151 + leap then 4
  else if dayWithinYear <? 181 + leap then 5
  else if dayWithinYear <? 212 + leap then 6
  else if dayWithinYear <? 243 + leap then 7
  else if dayWithinYear <? 273 + leap then 8
  else if dayWithinYear <? 304 + leap then 9
  else if dayWithinYear <? 334 + leap then 10
  else 11.

Definition DateFromTime (dayWithinYear leap : Z) : Z :=
  match MonthFromTime dayWithinYear leap with
  | 0 => dayWithinYear + 1
  | 1 => dayWithinYear - 30
  | 2 => dayWithinYear - 58 - leap
  | 3 => dayWithinYear - 89 - leap
  | 4 => dayWithinYear - 119 - leap
  | 5 => dayWithinYear - 150 - leap
  | 6 => dayWithinYear - 180 - leap
  | 7 => dayWithinYear - 211 - leap
  | 8 => dayWithinYear - 242 - leap
  | 9 => dayWithinYear - 272 - leap
  | 10 => dayWithinYear - 303 - leap
  | _ => dayWithinYear - 333 - leap
  end.

Definition HourFromTime (t : Z) : Z := (t / msPerHour) mod 24.
Definition MinFromTime (t : Z) : Z := (t / msPerMinute) mod 60.
Definition SecFromTime (t : Z) : Z := (t / msPerSecond) mod 60.
Definition msFromTime (t : Z) : Z := t mod msPerSecond.

(** Year, month (1..12) and day of the month of a day number, computed
    on years that start in March (so that the leap day comes last). *)
Definition firstDayOfMonth (mp : Z) : Z := (153 * mp + 2) / 5.

Definition civilFromDays (days : Z) : Z * Z * Z :=
  let z := days + 719468 in
  let era := z / 146097 in
  let doe := z - era * 146097 in
  let yoe := (doe - doe / 1460 + doe / 36524 - doe / 146096) / 365 in
  let doy := doe - (365 * yoe + yoe / 4 - yoe / 100) in
  let mp := (5 * doy + 2) / 153 in
  let d := doy - firstDayOfMonth mp + 1 in
  let m := if mp <? 10 then mp + 3 else mp - 9 in
  let y := yoe + era * 400 + (if m <=? 2 then 1 else 0) in
  (y, m, d).

Definition digit (n : Z) : N := Z.to_N (48 + n mod 10).

Definition pad2 (n : Z) : jsstring := [digit (n / 10); digit n].
Definition pad3 (n : Z) : jsstring := [digit (n / 100); digit (n / 10); digit n].
Definition pad4 (n : Z) : jsstring := digit (n / 1000) :: pad3 n.
Definition pad6 (n : Z) : jsstring := digit (n / 100000) :: digit (n / 10000) :: pad4 n.

(** Four digits for the years 0 to 9999, a sign and six digits otherwise. *)
Definition isoYear (y : Z) : jsstring :=
  if (0 <=? y) && (y <=? 9999) then pad4 y
  else if 0 <=? y then js "+" ++ pad6 y
  else js "-" ++ pad6 (- y).

Definition toISOString (t : Z) : jsstring :=
  let '(y, m, d) := civilFromDays (Day t) in
  isoYear y ++ js "-" ++ pad2 m ++ js "-" ++ pad2 d ++ js "T"
    ++ pad2 (HourFromTime t) ++ js ":" ++ pad2 (MinFromTime t) ++ js ":"
    ++ pad2 (SecFromTime t) ++ js "." ++ pad3 (msFromTime t) ++ js "Z".

(** The number a string of decimal digits denotes. *)
Definition numeral (s : jsstring) : Z :=
  fold_left (fun acc u => 10 * acc + (Z.of_N u - 48)) s 0.

Local Close Scope Z_scope.

(** The shape of an ISO-8601 date-time in UTC: a year of four digits,
    or of six digits with a sign, then [-MM-DDTHH:mm:ss.sssZ]. *)
Definition digits (n : nat) (s : jsstring) : Prop :=
  List.length s = n /\ Forall (fun u => (48 <= u <= 57)%N) s.

Definition isoFormat (s : jsstring) : Prop :=
  exists year month day hours minutes seconds millis,
    s = year ++ js "-" ++ month ++ js "-" ++ day ++ js "T"
          ++ hours ++ js ":" ++ minutes ++ js ":" ++ seconds
          ++ js "." ++ millis ++ js "Z"
    /\ (digits 4 year
        \/ exists sign rest,
             year = sign :: rest /\ (sign = 43%N \/ sign = 45%N) /\ digits 6 rest)
    /\ digits 2 month /\ digits 2 day
    /\ digits 2 hours /\ digits 2 minutes /\ digits 2 seconds
    /\ digits 3 millis.

(** ** Asynchronous steps

    A step of a chain may fail and may call the language model.  A
    [Task] threads the list of prompts sent to the model so far and
    yields the outcome of the step. *)
Definition Task (A : Type) : Type := list jsstring -> Outcome A * list jsstring.

Definition resolve {A : Type} (a : A) : Task A := fun calls => (Return a, calls).

Definition reject {A : Type} (e : JsError) : Task A := fun calls => (Throw e, calls).

Definition settle {A : Type} (o : Outcome A) : Task A := fun calls => (o, calls).

Definition bindT {A B : Type} (t : Task A) (k : A -> Task B) : Task B :=
  fun calls =>
    match t calls with
    | (Return a, calls') => k a calls'
    | (Throw e, calls') => (Throw e, calls')
    end.

Notation "x <~ t ;; k" := (bindT t (fun x => k))
  (at level 61, t at next level, right associativity).

(** [try { t } catch (error) { handler }]. *)
Definition tryCatch {A : Type} (t : Task A) (handler : JsError -> Task A) : Task A :=
  fun calls =>
    match t calls with
    | (Return a, calls') => (Return a, calls')
    | (Throw e, calls') => handler e calls'
    end.

(** [await Promise.all([a, b])]: both tasks are started, in this order;
    the join fulfils when both do and rejects with the reason of the
    task that rejects first. *)
Definition promiseAll {A B : Type} (firstSettlesFirst : bool)
    (a : Task A) (b : Task B) : Task (A * B) :=
  fun calls =>
    let (ra, calls1) := a calls in
    let (rb, calls2) := b calls1 in
    (match ra, rb with
     | Return x, Return y => Return (x, y)
     | Throw e, Return _ => Throw e
     | Return _, Throw e => Throw e
     | Throw e1, Throw e2 => Throw (if firstSettlesFirst then e1 else e2)
     end, calls2).

(** ** The collaborators of one request

    - [format template input]: LangChain's [PromptTemplate] applied to
      the chain input;
    - [llm prompt]: the chat model followed by [StringOutputParser],
      that is the text the model answers, or its failure;
    - [healthSettlesFirst]: which of the two concurrent checks settles
      first;
    - [now]: the clock, in milliseconds since the epoch. *)
Record World : Type := {
  format : jsstring -> JsValue -> Outcome jsstring;
  llm : jsstring -> Outcome jsstring;
  healthSettlesFirst : bool;
  now : Z
}.

(** ** Results of the chains *)

Record CheckedComponents : Type := {
  cpu : JsValue;
  memory : JsValue;
  disk : JsValue;
  responseTime : JsValue;
  errorRate : JsValue;
  dependencies : JsValue
}.

Record ComprehensiveResult : Type := {
  status : jsstring;
  systemHealth : jsstring;
  dependencyHealth : jsstring;
  reasoning : list jsstring;
  timestamp : jsstring;
  checkedComponents : CheckedComponents
}.

Record FormattedResponse : Type := {
  httpStatus : Z;
  message : jsstring;
  details : ComprehensiveResult;
  recommendations : list jsstring
}.

(** [res.status(code).json(body)]. *)
Record HttpResponse : Type := {
  statusCode : Z;
  body : JsValue
}.

(** ** The verdict literals *)

Definition HEALTHY : jsstring := js "HEALTHY".
Definition UNHEALTHY : jsstring := js "UNHEALTHY".
Definition DEPENDENCY_FAILURE : jsstring := js "DEPENDENCY_FAILURE".
Definition PARTIAL_DEPENDENCY : jsstring := js "PARTIAL_DEPENDENCY".
Definition DEPENDENCIES_HEALTHY : jsstring := js "DEPENDENCIES_HEALTHY".

(** ** The prompt templates *)

Definition quote : jsstring := [34%N].
Definition newline : jsstring := [10%N].

Definition healthAnalysisPrompt : jsstring :=
  js "
You are a system health analyzer. Analyze the following system metrics and determine if the system is healthy.

System Metrics:
- CPU Usage: {cpuUsage}%
- Memory Usage: {memoryUsage}%
- Disk Usage: {diskUsage}%
- Response Time: {responseTime}ms
- Error Rate: {errorRate}%

Rules for Health Assessment:
- CPU Usage > 80% = UNHEALTHY
- Memory Usage > 85% = UNHEALTHY  
- Disk Usage > 90% = UNHEALTHY
- Response Time > 2000ms = UNHEALTHY
- Error Rate > 5% = UNHEALTHY
- Otherwise = HEALTHY

Respond with exactly one word: either " ++ quote ++ js "HEALTHY" ++ quote
    ++ js " or " ++ quote ++ js "UNHEALTHY" ++ quote ++ newline.

Definition dependencyCheckPrompt : jsstring :=
  js "
You are a service dependency analyzer. Check if the system's dependencies are healthy.

Service Dependencies:
{dependencies}

Rules:
- If ANY critical service is down, respond with " ++ quote ++ js "DEPENDENCY_FAILURE" ++ quote ++ js "
- If all critical services are up but some non-critical are down, respond with "
    ++ quote ++ js "PARTIAL_DEPENDENCY" ++ quote ++ js "
- If all services are up, respond with " ++ quote ++ js "DEPENDENCIES_HEALTHY" ++ quote ++ js "

Respond with exactly one of these three options.
".

(** ** The dependency list of the data model

    A [DependencyStatus] is [{name, status, critical}] with two strings
    and a boolean; [represents v d] says that the value [v] is an object
    carrying these three properties (in any order, possibly among
    others). *)
Module DependencyStatus.

Record t : Type := {
  name : jsstring;
  status : jsstring;
  critical : bool
}.

Definition toValue (d : t) : JsValue :=
  JObject [(js "name", JString (name d));
           (js "status", JString (status d));
           (js "critical", JBool (critical d))].

Definition represents (v : JsValue) (d : t) : Prop :=
  exists props,
    v = JObject props
    /\ lookup (js "name") props = Some (JString (name d))
    /\ lookup (js "status") props = Some (JString (status d))
    /\ lookup (js "critical") props = Some (JBool (critical d)).

(** The line the documentation gives for a dependency:
    ["- {name}: {status} ({Critical|Non-Critical})"]. *)
Definition line (d : t) : jsstring :=
  js "- " ++ name d ++ js ": " ++ status d ++ js " ("
    ++ (if critical d then js "Critical" else js "Non-Critical") ++ js ")".

End DependencyStatus.

(** ** The documented example request *)

Definition exampleDependencies : JsValue :=
  JArray [JObject [(js "name", JString (js "DB"));
                   (js "status", JString (js "up"));
                   (js "critical", JBool true)]].

Definition exampleInput : JsValue :=
  JObject [(js "cpuUsage", JNumber (numberOfZ 10));
           (js "memoryUsage", JNumber (numberOfZ 10));
           (js "diskUsage", JNumber (numberOfZ 10));
           (js "responseTime", JNumber (numberOfZ 50));
           (js "errorRate", JNumber (numberOfZ 0));
           (js "dependencies", exampleDependencies)].

(** The [systemMetrics] view of the example, as step 1 builds it. *)
Definition exampleMetrics : JsValue :=
  JObject [(js "cpuUsage", JNumber (numberOfZ 10));
           (js "memoryUsage", JNumber (numberOfZ 10));
           (js "diskUsage", JNumber (numberOfZ 10));
           (js "responseTime", JNumber (numberOfZ 50));
           (js "errorRate", JNumber (numberOfZ 0))].

(** ** Test doubles

    An engine without case mappings above ASCII, and a world whose
    prompt formatter returns the template and whose model answers by
    the template it is asked with. *)
Definition plainUpper (cp : N) : list N := [cp].

Definition plainNumber (x : spec_float) : jsstring := js "NaN".

Definition plainFault (f : EngineFault) : jsstring := js "TypeError".

Definition scriptedWorld (healthAnswer dependencyAnswer : Outcome jsstring) : World :=
  {| format := fun template _ => Return template;
     llm := fun prompt =>
              if String_eqb prompt healthAnalysisPrompt
              then healthAnswer
              else dependencyAnswer;
     healthSettlesFirst := true;
     now := 1700000000000 |}.

(** A dependency list with a status other than "up" and "down". *)
Definition sampleDependencies : list DependencyStatus.t :=
  [{| DependencyStatus.name := js "DB";
      DependencyStatus.status := js "up";
      DependencyStatus.critical := true |};
   {| DependencyStatus.name := js "Cache";
      DependencyStatus.status := js "degraded";
      DependencyStatus.critical := false |}].

(** Generators that always draw 0.5, and always 0. *)
Definition halfRandom (n : nat) : spec_float :=
  S754_finite false 4503599627370496 (-53).

Definition zeroRandom (n : nat) : spec_float := S754_zero false.

(** A result both of whose checks failed. *)
Definition failedResult : ComprehensiveResult :=
  {| status := UNHEALTHY;
     systemHealth := UNHEALTHY;
     dependencyHealth := DEPENDENCY_FAILURE;
     reasoning := [js "System metrics indicate unhealthy state";
                   js "Critical dependencies are failing"];
     timestamp := toISOString 1700000000000;
     checkedComponents :=
       {| cpu := JNumber (numberOfZ 10);
          memory := JNumber (numberOfZ 10);
          disk := JNumber (numberOfZ 10);
          responseTime := JNumber (numberOfZ 50);
          errorRate := JNumber (numberOfZ 0);
          dependencies := JNumber (numberOfZ 1) |} |}.

Section Engine.

(** The Unicode upper-case mapping of the code points above ASCII
    (UnicodeData / SpecialCasing; one code point may map to several). *)
Variable unicodeUpper : N -> list N.

(** [Number::toString]. *)
Variable numberToString : spec_float -> jsstring.

(** The message the engine gives a [TypeError]. *)
Variable faultMessage : EngineFault -> jsstring.

Definition upperCodePoint (cp : N) : list N :=
  if ((97 <=? cp) && (cp <=? 122))%N then [(cp - 32)%N]
  else if (cp <? 128)%N then [cp]
  else unicodeUpper cp.

Definition toUpperCase (s : jsstring) : jsstring :=
  flat_map (fun cp => flat_map codeUnits (upperCodePoint cp)) (codePoints s).

Definition fault {A : Type} (f : EngineFault) : Outcome A :=
  Throw (TypeError (faultMessage f)).

(** [ToString].  An array prints as its elements joined by commas,
    [null] and [undefined] elements as the empty string.  A parsed
    object has no callable property of its own, so it prints through
    [Object.prototype.toString] unless an own [toString] hides it. *)
Fixpoint ToString (v : JsValue) : Outcome jsstring :=
  match v with
  | JUndefined => Return (js "undefined")
  | JNull => Return (js "null")
  | JBool b => Return (if b then js "true" else js "false")
  | JNumber x => Return (numberToString x)
  | JString s => Return s
  | JArray items =>
      (fix joinItems (l : list JsValue) : Outcome jsstring :=
         match l with
         | [] => Return []
         | x :: r =>
             s <- match x with
                  | JUndefined | JNull => Return []
                  | _ => ToString x
                  end ;;
             match r with
             | [] => Return s
             | _ => rest <- joinItems r ;; Return (s ++ js "," ++ rest)
             end
         end) items
  | JObject props =>
      match lookup (js "toString") props with
      | Some _ => fault NotPrimitive
      | None => Return (js "[object Object]")
      end
  end.

(** [v.key], for a key that no built-in prototype defines (every key
    the source reads this way is one). *)
Definition Get (v : JsValue) (key : jsstring) : Outcome JsValue :=
  match v with
  | JUndefined | JNull => fault (ReadOfNullish v key)
  | JObject props =>
      match lookup key props with
      | Some x => Return x
      | None => Return JUndefined
      end
  | _ => Return JUndefined
  end.

(** [v.length]. *)
Definition Get_length (v : JsValue) : Outcome JsValue :=
  match v with
  | JUndefined | JNull => fault (ReadOfNullish v (js "length"))
  | JArray items => Return (JNumber (numberOfZ (Z.of_nat (List.length items))))
  | JString s => Return (JNumber (numberOfZ (Z.of_nat (List.length s))))
  | JObject props =>
      match lookup (js "length") props with
      | Some x => Return x
      | None => Return JUndefined
      end
  | _ => Return JUndefined
  end.

Fixpoint mapItems {A : Type} (f : JsValue -> Outcome A) (items : list JsValue)
  : Outcome (list A) :=
  match items with
  | [] => Return []
  | x :: r => y <- f x ;; ys <- mapItems f r ;; Return (y :: ys)
  end.

(** [v.map(f)]: only an array has a callable [map]. *)
Definition Array_map {A : Type} (v : JsValue) (f : JsValue -> Outcome A)
  : Outcome (list A) :=
  match v with
  | JUndefined | JNull => fault (ReadOfNullish v (js "map"))
  | JArray items => mapItems f items
  | _ => fault (NotAFunction (js "map"))
  end.

(** ** The response validators *)

Definition validateHealthResponse (response : jsstring) : Outcome jsstring :=
  let trimmed := toUpperCase (trim response) in
  if String_eqb trimmed HEALTHY || String_eqb trimmed UNHEALTHY
  then Return trimmed
  else Throw (Error (js "Invalid health check response: " ++ response)).

(** [Array.prototype.includes] on an array of strings. *)
Definition includes (xs : list jsstring) (x : jsstring) : bool :=
  existsb (fun y => String_eqb y x) xs.

Definition validResponses : list jsstring :=
  [DEPENDENCY_FAILURE; PARTIAL_DEPENDENCY; DEPENDENCIES_HEALTHY].

Definition validateDependencyResponse (response : jsstring) : Outcome jsstring :=
  let trimmed := toUpperCase (trim response) in
  if includes validResponses trimmed
  then Return trimmed
  else Throw (Error (js "Invalid dependency check response: " ++ response)).

(** The arrow function both renderers pass to [map] (lines 174-177 and
    432-435 of the source are the same text). *)
Definition dependencyLine (dep : JsValue) : Outcome jsstring :=
  name <- Get dep (js "name") ;;
  name <- ToString name ;;
  status <- Get dep (js "status") ;;
  status <- ToString status ;;
  critical <- Get dep (js "critical") ;;
  Return (js "- " ++ name ++ js ": " ++ status ++ js " ("
            ++ (if ToBoolean critical then js "Critical" else js "Non-Critical")
            ++ js ")").

(** [dependencies.map(dep => ...).join("\n")]. *)
Definition dependencyString (dependencies : JsValue) : Outcome jsstring :=
  lines <- Array_map dependencies dependencyLine ;;
  Return (join newline lines).

Section Request.

Variable w : World.

(** One call of the model: the prompt is recorded, the answer is the
    world's. *)
Definition invokeModel (prompt : jsstring) : Task jsstring :=
  fun calls => (llm w prompt, calls ++ [prompt]).

(** ** Chain 1: system health analyzer *)
Definition healthAnalysisChain (input : JsValue) : Task jsstring :=
  prompt <~ settle (format w healthAnalysisPrompt input) ;;
  response <~ invokeModel prompt ;;
  settle (validateHealthResponse response).

(** ** Chain 2: service dependency checker *)
Definition dependencyCheckChain (input : JsValue) : Task jsstring :=
  prompt <~ settle (format w dependencyCheckPrompt input) ;;
  response <~ invokeModel prompt ;;
  settle (validateDependencyResponse response).

(** ** Chain 3: comprehensive health chain *)

(** Step 1: prepare data for parallel processing.  The result is the
    object [{systemMetrics, dependencies, originalInput}]. *)
Definition prepareData (input : JsValue) : Outcome (JsValue * jsstring * JsValue) :=
  cpuUsage <- Get input (js "cpuUsage") ;;
  memoryUsage <- Get input (js "memoryUsage") ;;
  diskUsage <- Get input (js "diskUsage") ;;
  responseTime <- Get input (js "responseTime") ;;
  errorRate <- Get input (js "errorRate") ;;
  let systemMetrics :=
    JObject [(js "cpuUsage", cpuUsage); (js "memoryUsage", memoryUsage);
             (js "diskUsage", diskUsage); (js "responseTime", responseTime);
             (js "errorRate", errorRate)] in
  dependencies <- Get input (js "dependencies") ;;
  dependencyString <- dependencyString dependencies ;;
  Return (systemMetrics, dependencyString, input).

(** Step 2: run both health checks in parallel.  The result is the
    object [{systemHealth, dependencyHealth, originalInput}]. *)
Definition runBothChecks (data : JsValue * jsstring * JsValue)
  : Task (jsstring * jsstring * JsValue) :=
  let '(systemMetrics, dependencies, originalInput) := data in
  tryCatch
    (both <~ promiseAll (healthSettlesFirst w)
               (healthAnalysisChain systemMetrics)
               (dependencyCheckChain
                  (JObject [(js "dependencies", JString dependencies)])) ;;
     let '(systemHealth, dependencyHealth) := both in
     resolve (systemHealth, dependencyHealth, originalInput))
    (fun error =>
       reject (Error (js "Health check failed: " ++ errorMessage error))).

(** Step 3: the two conditionals on [overallHealth] and [reasoning]. *)
Definition checkSystemHealth (systemHealth : jsstring)
    (st : jsstring * list jsstring) : jsstring * list jsstring :=
  let (overallHealth, reasoning) := st in
  if String_eqb systemHealth UNHEALTHY
  then (UNHEALTHY, reasoning ++ [js "System metrics indicate unhealthy state"])
  else (overallHealth, reasoning ++ [js "System metrics are within healthy ranges"]).

Definition checkDependencyHealth (dependencyHealth : jsstring)
    (st : jsstring * list jsstring) : jsstring * list jsstring :=
  let (overallHealth, reasoning) := st in
  if String_eqb dependencyHealth DEPENDENCY_FAILURE
  then (UNHEALTHY, reasoning ++ [js "Critical dependencies are failing"])
  else if String_eqb dependencyHealth PARTIAL_DEPENDENCY
  then (overallHealth, reasoning ++ [js "Some non-critical dependencies are down"])
  else (overallHealth, reasoning ++ [js "All dependencies are healthy"]).

(** Step 3: apply business logic to determine final status. *)
Definition applyBusinessLogic (results : jsstring * jsstring * JsValue)
  : Outcome ComprehensiveResult :=
  let '(systemHealth, dependencyHealth, originalInput) := results in
  let st0 := (HEALTHY, []) in
  let st1 := checkSystemHealth systemHealth st0 in
  let (overallHealth, reasoning) := checkDependencyHealth dependencyHealth st1 in
  let timestamp := toISOString (now w) in
  cpuUsage <- Get originalInput (js "cpuUsage") ;;
  memoryUsage <- Get originalInput (js "memoryUsage") ;;
  diskUsage <- Get originalInput (js "diskUsage") ;;
  responseTime <- Get originalInput (js "responseTime") ;;
  errorRate <- Get originalInput (js "errorRate") ;;
  dependencies <- Get originalInput (js "dependencies") ;;
  count <- Get_length dependencies ;;
  Return {| status := overallHealth;
            systemHealth := systemHealth;
            dependencyHealth := dependencyHealth;
            reasoning := reasoning;
            timestamp := timestamp;
            checkedComponents :=
              {| cpu := cpuUsage;
                 memory := memoryUsage;
                 disk := diskUsage;
                 responseTime := responseTime;
                 errorRate := errorRate;
                 dependencies := count |} |}.

Definition comprehensiveHealthChain (input : JsValue) : Task ComprehensiveResult :=
  data <~ settle (prepareData input) ;;
  results <~ runBothChecks data ;;
  settle (applyBusinessLogic results).

End Request.

(** ** Chain 4: conditional response chain *)

Definition healthyResponseChain (input : ComprehensiveResult) : FormattedResponse :=
  {| httpStatus := 200;
     message := js "System is healthy";
     details := input;
     recommendations := [] |}.

Definition resourceRecommendation : jsstring :=
  js "Check system resources and optimize performance".

Definition dependencyRecommendation : jsstring :=
  js "Investigate and restore critical service dependencies".

Definition unhealthyResponseChain (input : ComprehensiveResult) : FormattedResponse :=
  let recommendations := [] in
  let recommendations :=
    if String_eqb (systemHealth input) UNHEALTHY
    then recommendations ++ [resourceRecommendation]
    else recommendations in
  let recommendations :=
    if String_eqb (dependencyHealth input) DEPENDENCY_FAILURE
    then recommendations ++ [dependencyRecommendation]
    else recommendations in
  {| httpStatus := 500;
     message := js "System is unhealthy";
     details := input;
     recommendations := recommendations |}.

Definition conditionalResponseChain (input : ComprehensiveResult) : FormattedResponse :=
  if String_eqb (status input) HEALTHY
  then healthyResponseChain input
  else unhealthyResponseChain input.

(** ** Master chain: complete health check workflow *)
Definition masterHealthCheckChain (w : World) (input : JsValue) : Task FormattedResponse :=
  result <~ comprehensiveHealthChain w input ;;
  resolve (conditionalResponseChain result).

(** ** Endpoint 3: [POST /api/health/dependencies]

    [reqBody] is [req.body]; the result is the response sent. *)
Definition dependenciesEndpoint (w : World) (reqBody : JsValue) : Task HttpResponse :=
  tryCatch
    (dependencies <~ settle (Get reqBody (js "dependencies")) ;;
     if negb (ToBoolean dependencies) || negb (isArray dependencies)
     then
       resolve
         {| statusCode := 400;
            body := JObject
              [(js "status", JString (js "error"));
               (js "message",
                JString (js "Dependencies array is required in request body"))] |}
     else
       dependencyString <~ settle (dependencyString dependencies) ;;
       dependencyHealth <~
         dependencyCheckChain w
           (JObject [(js "dependencies", JString dependencyString)]) ;;
       let isHealthy := String_eqb dependencyHealth DEPENDENCIES_HEALTHY in
       resolve
         {| statusCode := if isHealthy then 200 else 500;
            body := JObject
              [(js "status", JString (if isHealthy then js "healthy" else js "unhealthy"));
               (js "dependencyHealth", JString dependencyHealth);
               (js "dependencies", dependencies);
               (js "message",
                JString (if isHealthy
                         then js "All dependencies are healthy"
                         else js "Some dependencies are failing"));
               (js "timestamp", JString (toISOString (now w)))] |})
    (fun error =>
       resolve
         {| statusCode := 500;
            body := JObject
              [(js "status", JString (js "error"));
               (js "message", JString (js "Dependency check system failure"));
               (js "error", JString (errorMessage error));
               (js "timestamp", JString (toISOString (now w)))] |}).

(** ** [Math.random]

    [random n] is what the [n]-th call of [Math.random] of a request
    returns; a computation that draws numbers threads the count of the
    calls made so far. *)
Definition scaled (x : spec_float) (factor : Z) : spec_float :=
  SFmul 53 1024 x (numberOfZ factor).

(** The double written [0.7]. *)
Definition pointSeven : spec_float := S754_finite false 6305039478318694 (-53).

(** [Math.random() * factor]. *)
Definition randomMetric (random : nat -> spec_float) (factor : Z) (n : nat)
  : JsValue * nat :=
  (JNumber (scaled (random n) factor), S n).

(** A destructuring default, [{ key = dflt }]: the default is evaluated
    only when the property is [undefined]. *)
Definition orDefault (v : JsValue) (dflt : nat -> JsValue * nat) (n : nat)
  : JsValue * nat :=
  match v with
  | JUndefined => dflt n
  | _ => (v, n)
  end.

(** ** Endpoint 1: [GET /api/health/basic] *)

(** The object literal [systemMetrics] of simulated metrics. *)
Definition simulatedMetrics (random : nat -> spec_float) : JsValue :=
  let '(cpuUsage, n) := randomMetric random 100 0 in
  let '(memoryUsage, n) := randomMetric random 100 n in
  let '(diskUsage, n) := randomMetric random 100 n in
  let '(responseTime, n) := randomMetric random 3000 n in
  let '(errorRate, n) := randomMetric random 10 n in
  JObject [(js "cpuUsage", cpuUsage); (js "memoryUsage", memoryUsage);
           (js "diskUsage", diskUsage); (js "responseTime", responseTime);
           (js "errorRate", errorRate)].

Definition basicEndpoint (w : World) (random : nat -> spec_float) : Task HttpResponse :=
  tryCatch
    (let systemMetrics := simulatedMetrics random in
     healthStatus <~ healthAnalysisChain w systemMetrics ;;
     if String_eqb healthStatus HEALTHY
     then
       resolve
         {| statusCode := 200;
            body := JObject
              [(js "status", JString (js "healthy"));
               (js "message", JString (js "All systems operational"));
               (js "metrics", systemMetrics);
               (js "timestamp", JString (toISOString (now w)))] |}
     else
       resolve
         {| statusCode := 500;
            body := JObject
              [(js "status", JString (js "unhealthy"));
               (js "message", JString (js "System health check failed"));
               (js "metrics", systemMetrics);
               (js "timestamp", JString (toISOString (now w)))] |})
    (fun error =>
       resolve
         {| statusCode := 500;
            body := JObject
              [(js "status", JString (js "error"));
               (js "message", JString (js "Health check system failure"));
               (js "error", JString (errorMessage error));
               (js "timestamp", JString (toISOString (now w)))] |}).

(** ** Endpoint 2: [POST /api/health/comprehensive] *)

(** The default of [dependencies]. *)
Definition defaultDependencies (random : nat -> spec_float) (n : nat)
  : JsValue * nat :=
  (JArray
     [JObject [(js "name", JString (js "Database"));
               (js "status", JString (js "up"));
               (js "critical", JBool true)];
      JObject [(js "name", JString (js "Cache"));
               (js "status", JString (js "up"));
               (js "critical", JBool true)];
      JObject [(js "name", JString (js "External API"));
               (js "status",
                JString (if SFltb pointSeven (random n) then js "down" else js "up"));
               (js "critical", JBool false)]],
   S n).

(** The six properties the endpoint reads off the request body. *)
Definition inputKeys : list jsstring :=
  [js "cpuUsage"; js "memoryUsage"; js "diskUsage"; js "responseTime";
   js "errorRate"; js "dependencies"].

(** [const { cpuUsage = ..., ..., dependencies = [...] } = req.body]
    followed by the object literal [healthCheckInput]. *)
Definition healthCheckInput (random : nat -> spec_float) (reqBody : JsValue)
  : Outcome JsValue :=
  cpuUsage <- Get reqBody (js "cpuUsage") ;;
  let '(cpuUsage, n) := orDefault cpuUsage (randomMetric random 100) 0 in
  memoryUsage <- Get reqBody (js "memoryUsage") ;;
  let '(memoryUsage, n) := orDefault memoryUsage (randomMetric random 100) n in
  diskUsage <- Get reqBody (js "diskUsage") ;;
  let '(diskUsage, n) := orDefault diskUsage (randomMetric random 100) n in
  responseTime <- Get reqBody (js "responseTime") ;;
  let '(responseTime, n) := orDefault responseTime (randomMetric random 3000) n in
  errorRate <- Get reqBody (js "errorRate") ;;
  let '(errorRate, n) := orDefault errorRate (randomMetric random 10) n in
  dependencies <- Get reqBody (js "dependencies") ;;
  let '(dependencies, n) := orDefault dependencies (defaultDependencies random) n in
  Return (JObject [(js "cpuUsage", cpuUsage); (js "memoryUsage", memoryUsage);
                   (js "diskUsage", diskUsage); (js "responseTime", responseTime);
                   (js "errorRate", errorRate); (js "dependencies", dependencies)]).

(** The objects of the chains as the values [res.json] is given. *)
Definition componentsValue (c : CheckedComponents) : JsValue :=
  JObject [(js "cpu", cpu c); (js "memory", memory c); (js "disk", disk c);
           (js "responseTime", responseTime c); (js "errorRate", errorRate c);
           (js "dependencies", dependencies c)].

Definition resultValue (r : ComprehensiveResult) : JsValue :=
  JObject [(js "status", JString (status r));
           (js "systemHealth", JString (systemHealth r));
           (js "dependencyHealth", JString (dependencyHealth r));
           (js "reasoning", JArray (List.map JString (reasoning r)));
           (js "timestamp", JString (timestamp r));
           (js "checkedComponents", componentsValue (checkedComponents r))].

Definition responseValue (r : FormattedResponse) : JsValue :=
  JObject [(js "httpStatus", JNumber (numberOfZ (httpStatus r)));
           (js "message", JString (message r));
           (js "details", resultValue (details r));
           (js "recommendations", JArray (List.map JString (recommendations r)))].

Definition comprehensiveEndpoint (w : World) (random : nat -> spec_float)
    (reqBody : JsValue) : Task HttpResponse :=
  tryCatch
    (healthCheckInput <~ settle (healthCheckInput random reqBody) ;;
     result <~ masterHealthCheckChain w healthCheckInput ;;
     resolve {| statusCode := httpStatus result; body := responseValue result |})
    (fun error =>
       resolve
         {| statusCode := 500;
            body := JObject
              [(js "status", JString (js "error"));
               (js "message",
                JString (js "Comprehensive health check system failure"));
               (js "error", JString (errorMessage error));
               (js "timestamp", JString (toISOString (now w)))] |}).

(** ** Endpoint 4: [GET /api/health/chains] *)

(** The code units the source file holds between the stages of [flow]
    (U+00E2, U+2020, U+2019). *)
Definition arrow : jsstring := [226; 8224; 8217]%N.

Definition chainsInformation : JsValue :=
  JObject
    [(js "availableChains",
      JObject
        [(js "healthAnalysis",
          JObject
            [(js "name", JString (js "System Health Analysis Chain"));
             (js "description",
              JString (js "Analyzes system metrics to determine overall health"));
             (js "inputs",
              JArray [JString (js "cpuUsage"); JString (js "memoryUsage");
                      JString (js "diskUsage"); JString (js "responseTime");
                      JString (js "errorRate")]);
             (js "outputs", JArray [JString (js "HEALTHY"); JString (js "UNHEALTHY")])]);
         (js "dependencyCheck",
          JObject
            [(js "name", JString (js "Dependency Check Chain"));
             (js "description",
              JString (js "Checks the health of external service dependencies"));
             (js "inputs", JArray [JString (js "dependencies")]);
             (js "outputs",
              JArray [JString (js "DEPENDENCIES_HEALTHY");
                      JString (js "PARTIAL_DEPENDENCY");
                      JString (js "DEPENDENCY_FAILURE")])]);
         (js "comprehensive",
          JObject
            [(js "name", JString (js "Comprehensive Health Chain"));
             (js "description",
              JString (js "Combines system and dependency health checks"));
             (js "inputs",
              JArray [JString (js "systemMetrics"); JString (js "dependencies")]);
             (js "outputs",
              JArray [JString (js "Complete health report with recommendations")])])]);
     (js "chainArchitecture",
      JObject
        [(js "flow",
          JString (js "Input " ++ arrow ++ js " Health Analysis " ++ arrow
                     ++ js " Dependency Check " ++ arrow
                     ++ js " Conditional Response " ++ arrow ++ js " Output"));
         (js "errorHandling",
          JString (js "Each chain step includes error handling and validation"));
         (js "performance",
          JString (js "Parallel execution where possible for optimal performance"))])].

(** ** The global error handler

    [nodeEnv] is [process.env.NODE_ENV], a string when the variable is
    set. *)
Definition globalErrorHandler (nodeEnv : option jsstring) (err : JsError)
  : HttpResponse :=
  {| statusCode := 500;
     body := JObject
       [(js "status", JString (js "error"));
        (js "message", JString (js "Internal server error"));
        (js "error",
         JString (match nodeEnv with
                  | Some env =>
                      if String_eqb env (js "development")
                      then errorMessage err
                      else js "Something went wrong"
                  | None => js "Something went wrong"
                  end))] |}.

(** * Properties *)

(** ** Trimming *)

Lemma trimStart_whitespace (ws s : jsstring) :
  forallb isWhiteSpace ws = true -> trimStart (ws ++ s) = trimStart s.
Proof.
  induction ws as [|u ws IH]; simpl; intros H.
  - reflexivity.
  - apply andb_true_iff in H as [Hu Hws]. rewrite Hu. now apply IH.
Qed.

Lemma trimStart_stops (u : N) (s : jsstring) :
  isWhiteSpace u = false -> trimStart (u :: s) = u :: s.
Proof. intros H. simpl. now rewrite H. Qed.

Lemma trimEnd_whitespace (s ws : jsstring) :
  forallb isWhiteSpace ws = true -> trimEnd (s ++ ws) = trimEnd s.
Proof.
  intros H. unfold trimEnd. rewrite rev_app_distr.
  rewrite trimStart_whitespace; [reflexivity|].
  rewrite forallb_forall in *. intros x Hx. apply H. now apply in_rev.
Qed.

Lemma trimEnd_stops (s : jsstring) (u : N) :
  isWhiteSpace u = false -> trimEnd (s ++ [u]) = s ++ [u].
Proof.
  intros H. unfold trimEnd. rewrite rev_app_distr. simpl.
  rewrite H. simpl. now rewrite rev_involutive.
Qed.

(** Trimming removes exactly the surrounding white space of a text that
    starts and ends with other characters. *)
Lemma trim_surrounded (ws1 ws2 middle : jsstring) (first last : N) :
  forallb isWhiteSpace ws1 = true ->
  forallb isWhiteSpace ws2 = true ->
  isWhiteSpace first = false ->
  isWhiteSpace last = false ->
  trim (ws1 ++ (first :: middle ++ [last]) ++ ws2) = first :: middle ++ [last].
Proof.
  intros H1 H2 Hf Hl. unfold trim.
  rewrite trimStart_whitespace by assumption.
  simpl app at 1. rewrite trimStart_stops by assumption.
  change (first :: (middle ++ [last]) ++ ws2)
    with ((first :: middle ++ [last]) ++ ws2).
  rewrite trimEnd_whitespace by assumption.
  change (first :: middle ++ [last]) with ((first :: middle) ++ [last]).
  now apply trimEnd_stops.
Qed.

(** ** Upper case of ASCII text *)

Lemma codePoints_ascii (s : jsstring) :
  Forall (fun c => (c < 128)%N) s -> codePoints s = s.
Proof.
  induction 1 as [|c r Hc Hr IH]; [reflexivity|].
  cbn [codePoints]. destruct r as [|l r']; [reflexivity|].
  replace (isHighSurrogate c) with false
    by (symmetry; apply andb_false_intro1, N.leb_gt; lia).
  cbn [andb]. now rewrite IH.
Qed.

Lemma toUpperCase_ascii (s : jsstring) :
  Forall (fun c => (c < 128)%N) s -> toUpperCase s = List.map asciiUpper s.
Proof.
  intros H. unfold toUpperCase. rewrite (codePoints_ascii H).
  induction H as [|c r Hc Hr IH]; [reflexivity|].
  cbn [flat_map List.map]. rewrite IH. f_equal.
  unfold upperCodePoint, asciiUpper.
  destruct ((97 <=? c) && (c <=? 122))%N eqn:E.
  - cbn [flat_map]. unfold codeUnits.
    replace (c - 32 <? 65536)%N with true by (symmetry; apply N.ltb_lt; lia).
    reflexivity.
  - replace (c <? 128)%N with true by (symmetry; now apply N.ltb_lt).
    cbn [flat_map]. unfold codeUnits.
    replace (c <? 65536)%N with true by (symmetry; apply N.ltb_lt; lia).
    reflexivity.
Qed.

Lemma isWhiteSpace_printable (c : N) :
  (33 <= c <= 126)%N -> isWhiteSpace c = false.
Proof.
  intros H. destruct c as [|p]; [lia|].
  do 7 (destruct p as [p|p|]; try lia; try reflexivity).
Qed.

(** A lower-case ASCII word in any casing, between white space,
    normalizes to the word in capitals. *)
Lemma normalize_any_casing (pattern ws1 body ws2 : jsstring) :
  Forall (fun l => (97 <= l <= 122)%N) pattern ->
  pattern <> [] ->
  anyCasing pattern body ->
  forallb isWhiteSpace ws1 = true ->
  forallb isWhiteSpace ws2 = true ->
  toUpperCase (trim (ws1 ++ body ++ ws2)) = List.map (fun l => (l - 32)%N) pattern.
Proof.
  intros Hlow Hne Hb H1 H2.
  assert (Hbody : Forall (fun c => (65 <= c <= 122)%N) body
                  /\ List.map asciiUpper body = List.map (fun l => (l - 32)%N) pattern).
  { clear Hne. induction Hb as [|l c p r Hc _ IH]; [now split|].
    inversion Hlow as [|? ? Hl Hp]; subst. destruct (IH Hp) as [IH1 IH2].
    split.
    - constructor; [destruct Hc; subst; lia | exact IH1].
    - cbn [List.map]. rewrite IH2. f_equal. unfold asciiUpper.
      destruct Hc as [-> | ->].
      + replace ((97 <=? l) && (l <=? 122))%N with true; [reflexivity|].
        symmetry. apply andb_true_intro. split; apply N.leb_le; lia.
      + replace ((97 <=? l - 32) && (l - 32 <=? 122))%N with false; [reflexivity|].
        symmetry. apply andb_false_intro1, N.leb_gt. lia. }
  destruct Hbody as [Hrange Hupper].
  assert (Htrim : trim (ws1 ++ body ++ ws2) = body).
  { destruct body as [|first rest].
    - inversion Hb; subst. contradiction.
    - destruct (exists_last (l := first :: rest) ltac:(discriminate))
        as (front & last & Hsplit).
      assert (Hlast : (65 <= last <= 122)%N).
      { rewrite Forall_forall in Hrange. apply Hrange. rewrite Hsplit.
        apply in_or_app. right. now left. }
      assert (Hfirst : (65 <= first <= 122)%N) by now inversion Hrange.
      destruct front as [|first' middle]; cbn [app] in Hsplit.
      + injection Hsplit as -> ->.
        unfold trim. rewrite trimStart_whitespace by assumption.
        cbn [app]. rewrite trimStart_stops by (apply isWhiteSpace_printable; lia).
        change (last :: ws2) with ([last] ++ ws2).
        rewrite trimEnd_whitespace by assumption.
        apply (trimEnd_stops []). apply isWhiteSpace_printable; lia.
      + injection Hsplit as <- ->.
        apply trim_surrounded; try assumption;
          apply isWhiteSpace_printable; lia. }
  rewrite Htrim, toUpperCase_ascii; [exact Hupper|].
  eapply Forall_impl; [|exact Hrange]. cbv beta. intros; lia.
Qed.

(** ** The validators *)

Lemma validateHealthResponse_accepts (response : jsstring) :
  toUpperCase (trim response) = HEALTHY \/ toUpperCase (trim response) = UNHEALTHY ->
  validateHealthResponse response = Return (toUpperCase (trim response)).
Proof.
  intros H. unfold validateHealthResponse.
  destruct H as [H | H]; rewrite H; reflexivity.
Qed.

Lemma validateHealthResponse_rejects (response : jsstring) :
  toUpperCase (trim response) <> HEALTHY ->
  toUpperCase (trim response) <> UNHEALTHY ->
  validateHealthResponse response
  = Throw (Error (js "Invalid health check response: " ++ response)).
Proof.
  intros H1 H2. unfold validateHealthResponse.
  apply String_eqb_neq in H1, H2. now rewrite H1, H2.
Qed.

Lemma validateHealthResponse_cases (response : jsstring) :
  (validateHealthResponse response = Return (toUpperCase (trim response))
   /\ (toUpperCase (trim response) = HEALTHY
       \/ toUpperCase (trim response) = UNHEALTHY))
  \/ (validateHealthResponse response
      = Throw (Error (js "Invalid health check response: " ++ response))
      /\ toUpperCase (trim response) <> HEALTHY
      /\ toUpperCase (trim response) <> UNHEALTHY).
Proof.
  destruct (String_eqb_spec (toUpperCase (trim response)) HEALTHY) as [H1|H1];
    [left; split; [apply validateHealthResponse_accepts|]; now left|].
  destruct (String_eqb_spec (toUpperCase (trim response)) UNHEALTHY) as [H2|H2];
    [left; split; [apply validateHealthResponse_accepts|]; now right|].
  right. split; [now apply validateHealthResponse_rejects | now split].
Qed.

Lemma healthy_in_any_casing (ws1 body ws2 : jsstring) :
  forallb isWhiteSpace ws1 = true ->
  forallb isWhiteSpace ws2 = true ->
  anyCasing (js "healthy") body ->
  validateHealthResponse (ws1 ++ body ++ ws2) = Return HEALTHY.
Proof.
  intros H1 H2 Hb. unfold validateHealthResponse.
  rewrite (@normalize_any_casing (js "healthy") ws1 body ws2);
    [reflexivity | | discriminate | assumption..].
  change (js "healthy") with [104; 101; 97; 108; 116; 104; 121]%N.
  repeat (constructor; [lia|]). constructor.
Qed.

(** C3.  The health validator accepts a response exactly when its
    trimmed, upper-cased text is HEALTHY or UNHEALTHY, and then returns
    that text; so "healthy" in any casing, surrounded by any white
    space, gives HEALTHY.  Every other response is refused with an
    error whose message carries the raw response. *)
Theorem validateHealthResponse_spec (response : jsstring) :
  ((exists verdict, validateHealthResponse response = Return verdict)
   <-> toUpperCase (trim response) = HEALTHY
       \/ toUpperCase (trim response) = UNHEALTHY)
  /\ (forall verdict,
        validateHealthResponse response = Return verdict ->
        verdict = toUpperCase (trim response))
  /\ (~ (toUpperCase (trim response) = HEALTHY
         \/ toUpperCase (trim response) = UNHEALTHY) ->
      validateHealthResponse response
      = Throw (Error (js "Invalid health check response: " ++ response)))
  /\ (forall ws1 body ws2,
        forallb isWhiteSpace ws1 = true ->
        forallb isWhiteSpace ws2 = true ->
        anyCasing (js "healthy") body ->
        response = ws1 ++ body ++ ws2 ->
        validateHealthResponse response = Return HEALTHY).
Proof.
  destruct (validateHealthResponse_cases response) as [[E H] | (E & H1 & H2)];
    rewrite E; repeat split.
  - intros _. exact H.
  - intros _. now eexists.
  - intros verdict [= <-]. reflexivity.
  - intros Hn. now destruct Hn.
  - intros ws1 body ws2 Hw1 Hw2 Hb ->. rewrite <- E.
    now apply healthy_in_any_casing.
  - intros [verdict Hv]. discriminate.
  - intros [H | H]; contradiction.
  - intros verdict Hv. discriminate.
  - intros ws1 body ws2 Hw1 Hw2 Hb ->.
    rewrite (@healthy_in_any_casing ws1 body ws2 Hw1 Hw2 Hb) in E. discriminate.
Qed.

Lemma includes_validResponses (x : jsstring) :
  includes validResponses x = true
  <-> x = DEPENDENCY_FAILURE \/ x = PARTIAL_DEPENDENCY \/ x = DEPENDENCIES_HEALTHY.
Proof.
  unfold includes, validResponses. simpl.
  rewrite !orb_true_iff, !String_eqb_eq. intuition congruence.
Qed.

Lemma validateDependencyResponse_cases (response : jsstring) :
  (validateDependencyResponse response = Return (toUpperCase (trim response))
   /\ (toUpperCase (trim response) = DEPENDENCY_FAILURE
       \/ toUpperCase (trim response) = PARTIAL_DEPENDENCY
       \/ toUpperCase (trim response) = DEPENDENCIES_HEALTHY))
  \/ (validateDependencyResponse response
      = Throw (Error (js "Invalid dependency check response: " ++ response))
      /\ ~ (toUpperCase (trim response) = DEPENDENCY_FAILURE
            \/ toUpperCase (trim response) = PARTIAL_DEPENDENCY
            \/ toUpperCase (trim response) = DEPENDENCIES_HEALTHY)).
Proof.
  unfold validateDependencyResponse.
  destruct (includes validResponses (toUpperCase (trim response))) eqn:E.
  - left. split; [reflexivity|]. now apply includes_validResponses.
  - right. split; [reflexivity|]. intros H.
    apply includes_validResponses in H. congruence.
Qed.

(** What the two check chains do, step by step. *)
Lemma healthAnalysisChain_run (w : World) (input : JsValue) (calls : list jsstring) :
  healthAnalysisChain w input calls
  = match format w healthAnalysisPrompt input with
    | Throw e => (Throw e, calls)
    | Return prompt =>
        match llm w prompt with
        | Throw e => (Throw e, calls ++ [prompt])
        | Return response => (validateHealthResponse response, calls ++ [prompt])
        end
    end.
Proof.
  unfold healthAnalysisChain, bindT, settle, invokeModel.
  destruct (format w healthAnalysisPrompt input); [|reflexivity].
  destruct (llm w a); reflexivity.
Qed.

Lemma dependencyCheckChain_run (w : World) (input : JsValue) (calls : list jsstring) :
  dependencyCheckChain w input calls
  = match format w dependencyCheckPrompt input with
    | Throw e => (Throw e, calls)
    | Return prompt =>
        match llm w prompt with
        | Throw e => (Throw e, calls ++ [prompt])
        | Return response => (validateDependencyResponse response, calls ++ [prompt])
        end
    end.
Proof.
  unfold dependencyCheckChain, bindT, settle, invokeModel.
  destruct (format w dependencyCheckPrompt input); [|reflexivity].
  destruct (llm w a); reflexivity.
Qed.

(** C4.  The dependency validator returns the trimmed, upper-cased
    response when that is one of the three literals and refuses every
    other response with an error carrying the raw text; hence whatever
    the model answers, the dependency check yields one of the three
    literals or fails, never a fourth value. *)
Theorem validateDependencyResponse_three_literals (response : jsstring) :
  ((validateDependencyResponse response = Return (toUpperCase (trim response))
    /\ (toUpperCase (trim response) = DEPENDENCY_FAILURE
        \/ toUpperCase (trim response) = PARTIAL_DEPENDENCY
        \/ toUpperCase (trim response) = DEPENDENCIES_HEALTHY))
   \/ (validateDependencyResponse response
       = Throw (Error (js "Invalid dependency check response: " ++ response))
       /\ ~ (toUpperCase (trim response) = DEPENDENCY_FAILURE
             \/ toUpperCase (trim response) = PARTIAL_DEPENDENCY
             \/ toUpperCase (trim response) = DEPENDENCIES_HEALTHY)))
  /\ (forall (w : World) (input : JsValue) (calls : list jsstring),
        match fst (dependencyCheckChain w input calls) with
        | Return verdict =>
            verdict = DEPENDENCY_FAILURE
            \/ verdict = PARTIAL_DEPENDENCY
            \/ verdict = DEPENDENCIES_HEALTHY
        | Throw _ => True
        end).
Proof.
  split; [apply validateDependencyResponse_cases|].
  intros w input calls. rewrite dependencyCheckChain_run.
  destruct (format w dependencyCheckPrompt input) as [prompt|e]; [|exact I].
  destruct (llm w prompt) as [answer|e]; [|exact I].
  simpl. destruct (validateDependencyResponse_cases answer) as [[-> H] | [-> _]].
  - exact H.
  - exact I.
Qed.

(** ** The comprehensive health chain *)

Lemma HEALTHY_neq_UNHEALTHY : HEALTHY <> UNHEALTHY.
Proof. discriminate. Qed.

Lemma checkSystemHealth_status (systemHealth' : jsstring) (st : jsstring * list jsstring) :
  fst (checkSystemHealth systemHealth' st)
  = if String_eqb systemHealth' UNHEALTHY then UNHEALTHY else fst st.
Proof.
  destruct st as [overall reasons]. unfold checkSystemHealth.
  destruct (String_eqb systemHealth' UNHEALTHY); reflexivity.
Qed.

Lemma checkDependencyHealth_status (dependencyHealth' : jsstring)
    (st : jsstring * list jsstring) :
  fst (checkDependencyHealth dependencyHealth' st)
  = if String_eqb dependencyHealth' DEPENDENCY_FAILURE then UNHEALTHY else fst st.
Proof.
  destruct st as [overall reasons]. unfold checkDependencyHealth.
  destruct (String_eqb dependencyHealth' DEPENDENCY_FAILURE); [reflexivity|].
  destruct (String_eqb dependencyHealth' PARTIAL_DEPENDENCY); reflexivity.
Qed.

(** The overall status the two conditionals compute from HEALTHY. *)
Lemma merged_status (systemHealth' dependencyHealth' : jsstring) :
  fst (checkDependencyHealth dependencyHealth'
         (checkSystemHealth systemHealth' (HEALTHY, [])))
  = if String_eqb systemHealth' UNHEALTHY
       || String_eqb dependencyHealth' DEPENDENCY_FAILURE
    then UNHEALTHY else HEALTHY.
Proof.
  rewrite checkDependencyHealth_status, checkSystemHealth_status. simpl.
  destruct (String_eqb systemHealth' UNHEALTHY),
    (String_eqb dependencyHealth' DEPENDENCY_FAILURE); reflexivity.
Qed.

(** A result of step 3 carries the two verdicts, the merged status and
    reasoning, the time stamp and the echo of the input. *)
Lemma applyBusinessLogic_inv (w : World) (systemHealth' dependencyHealth' : jsstring)
    (originalInput : JsValue) (r : ComprehensiveResult) :
  applyBusinessLogic w (systemHealth', dependencyHealth', originalInput) = Return r ->
  let st := checkDependencyHealth dependencyHealth'
              (checkSystemHealth systemHealth' (HEALTHY, [])) in
  status r = fst st
  /\ reasoning r = snd st
  /\ systemHealth r = systemHealth'
  /\ dependencyHealth r = dependencyHealth'
  /\ timestamp r = toISOString (now w)
  /\ Get originalInput (js "cpuUsage") = Return (cpu (checkedComponents r))
  /\ Get originalInput (js "memoryUsage") = Return (memory (checkedComponents r))
  /\ Get originalInput (js "diskUsage") = Return (disk (checkedComponents r))
  /\ Get originalInput (js "responseTime") = Return (responseTime (checkedComponents r))
  /\ Get originalInput (js "errorRate") = Return (errorRate (checkedComponents r))
  /\ exists dependencies',
       Get originalInput (js "dependencies") = Return dependencies'
       /\ Get_length dependencies' = Return (dependencies (checkedComponents r)).
Proof.
  unfold applyBusinessLogic.
  destruct (checkDependencyHealth dependencyHealth'
              (checkSystemHealth systemHealth' (HEALTHY, []))) as [overall reasons].
  destruct (Get originalInput (js "cpuUsage")) as [v1|]; [|discriminate].
  destruct (Get originalInput (js "memoryUsage")) as [v2|]; [|discriminate].
  destruct (Get originalInput (js "diskUsage")) as [v3|]; [|discriminate].
  destruct (Get originalInput (js "responseTime")) as [v4|]; [|discriminate].
  destruct (Get originalInput (js "errorRate")) as [v5|]; [|discriminate].
  destruct (Get originalInput (js "dependencies")) as [v6|]; [|discriminate].
  simpl. destruct (Get_length v6) as [n|] eqn:En; [|discriminate].
  simpl. intros [= <-]. simpl. repeat split. exists v6. now split.
Qed.

(** Step 2 runs both checks, one after the other on the call log, and
    joins them. *)
Lemma runBothChecks_run (w : World) (systemMetrics : JsValue) (dependencies' : jsstring)
    (originalInput : JsValue) (calls : list jsstring) :
  runBothChecks w (systemMetrics, dependencies', originalInput) calls
  = let health := healthAnalysisChain w systemMetrics calls in
    let deps := dependencyCheckChain w
                  (JObject [(js "dependencies", JString dependencies')])
                  (snd health) in
    (match fst health, fst deps with
     | Return x, Return y => Return (x, y, originalInput)
     | Throw e, Return _ | Return _, Throw e =>
         Throw (Error (js "Health check failed: " ++ errorMessage e))
     | Throw e1, Throw e2 =>
         Throw (Error (js "Health check failed: "
                         ++ errorMessage (if healthSettlesFirst w then e1 else e2)))
     end, snd deps).
Proof.
  unfold runBothChecks, tryCatch, bindT, promiseAll, resolve, reject.
  destruct (healthAnalysisChain w systemMetrics calls) as [ra c1]. simpl.
  destruct (dependencyCheckChain w _ c1) as [rb c2]. simpl.
  destruct ra, rb; reflexivity.
Qed.

(** A result of the whole chain comes from a successful preparation,
    two successful checks and step 3. *)
Lemma comprehensiveHealthChain_inv (w : World) (input : JsValue)
    (calls calls' : list jsstring) (r : ComprehensiveResult) :
  comprehensiveHealthChain w input calls = (Return r, calls') ->
  exists systemMetrics dependencies' systemHealth' dependencyHealth' calls1,
    prepareData input = Return (systemMetrics, dependencies', input)
    /\ healthAnalysisChain w systemMetrics calls = (Return systemHealth', calls1)
    /\ dependencyCheckChain w (JObject [(js "dependencies", JString dependencies')]) calls1
       = (Return dependencyHealth', calls')
    /\ applyBusinessLogic w (systemHealth', dependencyHealth', input) = Return r.
Proof.
  unfold comprehensiveHealthChain, bindT, settle.
  destruct (prepareData input) as [[[systemMetrics dependencies'] original]|] eqn:Ep;
    [|discriminate].
  assert (original = input) as ->.
  { unfold prepareData in Ep.
    repeat match type of Ep with
           | bindO ?o _ = _ => destruct o; simpl in Ep; [|discriminate]
           end.
    congruence. }
  rewrite runBothChecks_run.
  destruct (healthAnalysisChain w systemMetrics calls) as [ra c1] eqn:Eh. simpl.
  destruct (dependencyCheckChain w _ c1) as [rb c2] eqn:Ed. simpl.
  destruct ra as [x|], rb as [y|]; try discriminate.
  intros [= Hr <-].
  exists systemMetrics, dependencies', x, y, c1. repeat split; assumption.
Qed.

Lemma healthAnalysisChain_verdict (w : World) (input : JsValue)
    (calls calls' : list jsstring) (verdict : jsstring) :
  healthAnalysisChain w input calls = (Return verdict, calls') ->
  verdict = HEALTHY \/ verdict = UNHEALTHY.
Proof.
  rewrite healthAnalysisChain_run.
  destruct (format w healthAnalysisPrompt input) as [prompt|]; [|discriminate].
  destruct (llm w prompt) as [answer|]; [|discriminate].
  intros [= Hv _].
  destruct (validateHealthResponse_cases answer) as [[E H] | [E _]];
    rewrite E in Hv; [|discriminate].
  injection Hv as <-. exact H.
Qed.

Lemma dependencyCheckChain_verdict (w : World) (input : JsValue)
    (calls calls' : list jsstring) (verdict : jsstring) :
  dependencyCheckChain w input calls = (Return verdict, calls') ->
  verdict = DEPENDENCY_FAILURE
  \/ verdict = PARTIAL_DEPENDENCY
  \/ verdict = DEPENDENCIES_HEALTHY.
Proof.
  rewrite dependencyCheckChain_run.
  destruct (format w dependencyCheckPrompt input) as [prompt|]; [|discriminate].
  destruct (llm w prompt) as [answer|]; [|discriminate].
  intros [= Hv _].
  destruct (validateDependencyResponse_cases answer) as [[E H] | [E _]];
    rewrite E in Hv; [|discriminate].
  injection Hv as <-. exact H.
Qed.

(** C1.  The overall status starts as HEALTHY and each of the two
    conditionals can only raise it to UNHEALTHY; so for every pair of
    check results the status of the comprehensive result is UNHEALTHY
    exactly when the system verdict is UNHEALTHY or the dependency
    verdict is DEPENDENCY_FAILURE, and HEALTHY otherwise: in particular
    HEALTHY with PARTIAL_DEPENDENCY stays HEALTHY.  The same holds of
    every result the whole chain returns, whose two verdicts are
    validated ones. *)
Theorem overall_status_rule (w : World) :
  (forall x st, fst st = UNHEALTHY -> fst (checkSystemHealth x st) = UNHEALTHY)
  /\ (forall x st, fst st = UNHEALTHY -> fst (checkDependencyHealth x st) = UNHEALTHY)
  /\ (forall systemHealth' dependencyHealth' originalInput r,
        applyBusinessLogic w (systemHealth', dependencyHealth', originalInput) = Return r ->
        status r = fst (checkDependencyHealth dependencyHealth'
                          (checkSystemHealth systemHealth' (HEALTHY, [])))
        /\ (status r = UNHEALTHY
            <-> systemHealth' = UNHEALTHY \/ dependencyHealth' = DEPENDENCY_FAILURE)
        /\ (status r = HEALTHY
            <-> ~ (systemHealth' = UNHEALTHY \/ dependencyHealth' = DEPENDENCY_FAILURE))
        /\ (systemHealth' = HEALTHY -> dependencyHealth' = PARTIAL_DEPENDENCY ->
            status r = HEALTHY))
  /\ (forall input calls r calls',
        comprehensiveHealthChain w input calls = (Return r, calls') ->
        (systemHealth r = HEALTHY \/ systemHealth r = UNHEALTHY)
        /\ (dependencyHealth r = DEPENDENCY_FAILURE
            \/ dependencyHealth r = PARTIAL_DEPENDENCY
            \/ dependencyHealth r = DEPENDENCIES_HEALTHY)
        /\ (status r = UNHEALTHY
            <-> systemHealth r = UNHEALTHY \/ dependencyHealth r = DEPENDENCY_FAILURE)
        /\ (systemHealth r = HEALTHY -> dependencyHealth r = PARTIAL_DEPENDENCY ->
            status r = HEALTHY)).
Proof.
  assert (Hstep3 : forall systemHealth' dependencyHealth' originalInput r,
             applyBusinessLogic w (systemHealth', dependencyHealth', originalInput)
             = Return r ->
             status r = fst (checkDependencyHealth dependencyHealth'
                               (checkSystemHealth systemHealth' (HEALTHY, [])))
             /\ (status r = UNHEALTHY
                 <-> systemHealth' = UNHEALTHY \/ dependencyHealth' = DEPENDENCY_FAILURE)
             /\ (status r = HEALTHY
                 <-> ~ (systemHealth' = UNHEALTHY
                        \/ dependencyHealth' = DEPENDENCY_FAILURE))
             /\ (systemHealth' = HEALTHY -> dependencyHealth' = PARTIAL_DEPENDENCY ->
                 status r = HEALTHY)).
  { intros s d original r Hr.
    apply applyBusinessLogic_inv in Hr. destruct Hr as [Hst _].
    split; [exact Hst|]. rewrite Hst, merged_status.
    pose proof HEALTHY_neq_UNHEALTHY as Hne.
    destruct (String_eqb_spec s UNHEALTHY) as [Es|Es];
      destruct (String_eqb_spec d DEPENDENCY_FAILURE) as [Ed|Ed]; simpl;
      repeat split; intros; subst; try tauto; try congruence;
      try discriminate; exfalso; intuition congruence. }
  split; [|split; [|split; [exact Hstep3|]]].
  - intros x st H. rewrite checkSystemHealth_status, H.
    now destruct (String_eqb x UNHEALTHY).
  - intros x st H. rewrite checkDependencyHealth_status, H.
    now destruct (String_eqb x DEPENDENCY_FAILURE).
  - intros input calls r calls' Hrun.
    apply comprehensiveHealthChain_inv in Hrun.
    destruct Hrun as (metrics & deps & s & d & c1 & _ & Hh & Hd & Hr).
    destruct (applyBusinessLogic_inv _ _ _ _ Hr) as (_ & _ & Hs & Hdh & _).
    destruct (Hstep3 _ _ _ _ Hr) as (_ & Hu & _ & Hp).
    rewrite Hs, Hdh.
    repeat split; try tauto.
    + eapply healthAnalysisChain_verdict; eassumption.
    + eapply dependencyCheckChain_verdict; eassumption.
Qed.

(** C2.  Once the input is prepared both checks are started.  If the
    health analysis or the dependency check fails (the prompt
    formatter, the model or the validator raised), the comprehensive
    chain fails too: it returns no result at all, only the error
    "Health check failed: ..." built from the failure of a failing
    check. *)
Theorem comprehensiveHealthChain_fail_fast (w : World) (input systemMetrics : JsValue)
    (dependencies' : jsstring) (calls : list jsstring) :
  prepareData input = Return (systemMetrics, dependencies', input) ->
  (exists e, fst (healthAnalysisChain w systemMetrics calls) = Throw e)
  \/ (exists e,
        fst (dependencyCheckChain w
               (JObject [(js "dependencies", JString dependencies')])
               (snd (healthAnalysisChain w systemMetrics calls))) = Throw e) ->
  (forall r calls', comprehensiveHealthChain w input calls <> (Return r, calls'))
  /\ exists e,
       (fst (healthAnalysisChain w systemMetrics calls) = Throw e
        \/ fst (dependencyCheckChain w
                  (JObject [(js "dependencies", JString dependencies')])
                  (snd (healthAnalysisChain w systemMetrics calls))) = Throw e)
       /\ fst (comprehensiveHealthChain w input calls)
          = Throw (Error (js "Health check failed: " ++ errorMessage e))
       /\ snd (comprehensiveHealthChain w input calls)
          = snd (dependencyCheckChain w
                   (JObject [(js "dependencies", JString dependencies')])
                   (snd (healthAnalysisChain w systemMetrics calls))).
Proof.
  intros Hp Hfail.
  assert (Hrun : exists e,
             (fst (healthAnalysisChain w systemMetrics calls) = Throw e
              \/ fst (dependencyCheckChain w
                        (JObject [(js "dependencies", JString dependencies')])
                        (snd (healthAnalysisChain w systemMetrics calls))) = Throw e)
             /\ fst (comprehensiveHealthChain w input calls)
                = Throw (Error (js "Health check failed: " ++ errorMessage e))
             /\ snd (comprehensiveHealthChain w input calls)
                = snd (dependencyCheckChain w
                         (JObject [(js "dependencies", JString dependencies')])
                         (snd (healthAnalysisChain w systemMetrics calls)))).
  { unfold comprehensiveHealthChain, bindT, settle. rewrite Hp.
    rewrite runBothChecks_run. cbv zeta.
    destruct (fst (healthAnalysisChain w systemMetrics calls)) as [x|e1] eqn:Eh;
      destruct (fst (dependencyCheckChain w
                       (JObject [(js "dependencies", JString dependencies')])
                       (snd (healthAnalysisChain w systemMetrics calls))))
        as [y|e2] eqn:Ed.
    - destruct Hfail as [[e He] | [e He]]; discriminate.
    - exists e2. split; [now right | split; reflexivity].
    - exists e1. split; [now left | split; reflexivity].
    - destruct (healthSettlesFirst w).
      + exists e1. split; [now left | split; reflexivity].
      + exists e2. split; [now right | split; reflexivity]. }
  split; [|exact Hrun].
  intros r calls' Heq. destruct Hrun as (e & _ & He & _).
  rewrite Heq in He. discriminate.
Qed.

(** ** The conditional response chain *)

(** C5.  The formatter is a function of the comprehensive result
    alone.  A HEALTHY result gives status code 200, "System is
    healthy" and no recommendation.  An UNHEALTHY result gives 500,
    "System is unhealthy" and the recommendations: the resource one
    exactly when the system verdict is UNHEALTHY, then the dependency
    one exactly when the dependency verdict is DEPENDENCY_FAILURE;
    PARTIAL_DEPENDENCY adds nothing. *)
Theorem conditionalResponseChain_spec (r : ComprehensiveResult) :
  (status r = HEALTHY ->
   conditionalResponseChain r
   = {| httpStatus := 200;
        message := js "System is healthy";
        details := r;
        recommendations := [] |})
  /\ (status r = UNHEALTHY ->
      httpStatus (conditionalResponseChain r) = 500%Z
      /\ message (conditionalResponseChain r) = js "System is unhealthy"
      /\ details (conditionalResponseChain r) = r
      /\ recommendations (conditionalResponseChain r)
         = (if String_eqb (systemHealth r) UNHEALTHY
            then [resourceRecommendation] else [])
           ++ (if String_eqb (dependencyHealth r) DEPENDENCY_FAILURE
               then [dependencyRecommendation] else [])
      /\ (In resourceRecommendation (recommendations (conditionalResponseChain r))
          <-> systemHealth r = UNHEALTHY)
      /\ (In dependencyRecommendation (recommendations (conditionalResponseChain r))
          <-> dependencyHealth r = DEPENDENCY_FAILURE)
      /\ (systemHealth r = UNHEALTHY -> dependencyHealth r = DEPENDENCY_FAILURE ->
          recommendations (conditionalResponseChain r)
          = [resourceRecommendation; dependencyRecommendation])
      /\ (systemHealth r <> UNHEALTHY -> dependencyHealth r = PARTIAL_DEPENDENCY ->
          recommendations (conditionalResponseChain r) = [])).
Proof.
  split.
  - intros H. unfold conditionalResponseChain. rewrite H. reflexivity.
  - intros H. unfold conditionalResponseChain. rewrite H.
    change (String_eqb UNHEALTHY HEALTHY) with false.
    unfold unhealthyResponseChain. cbn [httpStatus message details recommendations].
    assert (Hrec : resourceRecommendation <> dependencyRecommendation) by discriminate.
    assert (Hpd : PARTIAL_DEPENDENCY <> DEPENDENCY_FAILURE) by discriminate.
    destruct (String_eqb_spec (systemHealth r) UNHEALTHY) as [Es|Es];
      destruct (String_eqb_spec (dependencyHealth r) DEPENDENCY_FAILURE) as [Ed|Ed];
      simpl; repeat split; intros; try reflexivity; try assumption;
      try congruence; try tauto; try (exfalso; intuition congruence).
Qed.

(** ** The master chain on the documented example *)

Lemma prepareData_example :
  prepareData exampleInput
  = Return (exampleMetrics, js "- DB: up (Critical)", exampleInput).
Proof. reflexivity. Qed.

(** The master chain when both checks of a prepared input succeed. *)
Lemma masterHealthCheckChain_run (w : World) (input systemMetrics : JsValue)
    (dependencies' prompt1 prompt2 answer1 answer2 verdict1 verdict2 : jsstring)
    (calls : list jsstring) (r : ComprehensiveResult) :
  prepareData input = Return (systemMetrics, dependencies', input) ->
  format w healthAnalysisPrompt systemMetrics = Return prompt1 ->
  llm w prompt1 = Return answer1 ->
  validateHealthResponse answer1 = Return verdict1 ->
  format w dependencyCheckPrompt (JObject [(js "dependencies", JString dependencies')])
  = Return prompt2 ->
  llm w prompt2 = Return answer2 ->
  validateDependencyResponse answer2 = Return verdict2 ->
  applyBusinessLogic w (verdict1, verdict2, input) = Return r ->
  masterHealthCheckChain w input calls
  = (Return (conditionalResponseChain r), calls ++ [prompt1; prompt2]).
Proof.
  intros Hp Hf1 Hl1 Hv1 Hf2 Hl2 Hv2 Hr.
  unfold masterHealthCheckChain, comprehensiveHealthChain, bindT, settle, resolve.
  rewrite Hp, runBothChecks_run.
  rewrite healthAnalysisChain_run, Hf1, Hl1, Hv1. cbn [fst snd].
  rewrite dependencyCheckChain_run, Hf2, Hl2, Hv2. cbn [fst snd].
  rewrite Hr, <- app_assoc. reflexivity.
Qed.

(** C6.  The documented request, through the master chain.  When the
    model answers HEALTHY to the health prompt and DEPENDENCIES_HEALTHY
    to the dependency prompt, the response has overall status HEALTHY,
    status code 200 and no recommendation.  When it answers UNHEALTHY
    and DEPENDENCY_FAILURE, the response has overall status UNHEALTHY,
    status code 500 and the resource and dependency recommendations,
    in this order. *)
Theorem masterHealthCheckChain_examples (w : World) (calls : list jsstring)
    (prompt1 prompt2 : jsstring) :
  format w healthAnalysisPrompt exampleMetrics = Return prompt1 ->
  format w dependencyCheckPrompt
    (JObject [(js "dependencies", JString (js "- DB: up (Critical)"))])
  = Return prompt2 ->
  (llm w prompt1 = Return (js "HEALTHY") ->
   llm w prompt2 = Return (js "DEPENDENCIES_HEALTHY") ->
   exists response,
     masterHealthCheckChain w exampleInput calls
     = (Return response, calls ++ [prompt1; prompt2])
     /\ status (details response) = js "HEALTHY"
     /\ httpStatus response = 200%Z
     /\ recommendations response = [])
  /\ (llm w prompt1 = Return (js "UNHEALTHY") ->
      llm w prompt2 = Return (js "DEPENDENCY_FAILURE") ->
      exists response,
        masterHealthCheckChain w exampleInput calls
        = (Return response, calls ++ [prompt1; prompt2])
        /\ status (details response) = js "UNHEALTHY"
        /\ httpStatus response = 500%Z
        /\ recommendations response
           = [js "Check system resources and optimize performance";
              js "Investigate and restore critical service dependencies"]).
Proof.
  intros Hf1 Hf2. split; intros Hl1 Hl2; eexists; (split; [|repeat split]).
  - eapply masterHealthCheckChain_run;
      [exact prepareData_example | exact Hf1 | exact Hl1 | reflexivity
      | exact Hf2 | exact Hl2 | reflexivity | reflexivity].
  - reflexivity.
  - reflexivity.
  - reflexivity.
  - eapply masterHealthCheckChain_run;
      [exact prepareData_example | exact Hf1 | exact Hl1 | reflexivity
      | exact Hf2 | exact Hl2 | reflexivity | reflexivity].
  - reflexivity.
  - reflexivity.
  - reflexivity.
Qed.

(** ** The dependency renderer *)

Lemma dependencyLine_represents (v : JsValue) (d : DependencyStatus.t) :
  DependencyStatus.represents v d ->
  dependencyLine v = Return (DependencyStatus.line d).
Proof.
  intros (props & -> & Hn & Hs & Hc).
  unfold dependencyLine, Get. rewrite Hn, Hs, Hc. reflexivity.
Qed.

Lemma toValue_represents (d : DependencyStatus.t) :
  DependencyStatus.represents (DependencyStatus.toValue d) d.
Proof.
  exists [(js "name", JString (DependencyStatus.name d));
          (js "status", JString (DependencyStatus.status d));
          (js "critical", JBool (DependencyStatus.critical d))].
  repeat split.
Qed.

Lemma mapItems_dependencyLine (items : list JsValue) (deps : list DependencyStatus.t) :
  Forall2 DependencyStatus.represents items deps ->
  mapItems dependencyLine items = Return (List.map DependencyStatus.line deps).
Proof.
  induction 1 as [|v d items deps Hv _ IH]; simpl.
  - reflexivity.
  - rewrite (dependencyLine_represents Hv). simpl. rewrite IH. reflexivity.
Qed.

(** The endpoint, once [req.body.dependencies] is an array that renders. *)
Lemma dependenciesEndpoint_run (w : World) (reqBody : JsValue) (items : list JsValue)
    (rendered : jsstring) (calls : list jsstring) :
  Get reqBody (js "dependencies") = Return (JArray items) ->
  dependencyString (JArray items) = Return rendered ->
  dependenciesEndpoint w reqBody calls
  = match dependencyCheckChain w
            (JObject [(js "dependencies", JString rendered)]) calls with
    | (Return dependencyHealth', calls') =>
        let isHealthy := String_eqb dependencyHealth' DEPENDENCIES_HEALTHY in
        (Return
           {| statusCode := if isHealthy then 200%Z else 500%Z;
              body := JObject
                [(js "status",
                  JString (if isHealthy then js "healthy" else js "unhealthy"));
                 (js "dependencyHealth", JString dependencyHealth');
                 (js "dependencies", JArray items);
                 (js "message",
                  JString (if isHealthy
                           then js "All dependencies are healthy"
                           else js "Some dependencies are failing"));
                 (js "timestamp", JString (toISOString (now w)))] |}, calls')
    | (Throw error, calls') =>
        (Return
           {| statusCode := 500%Z;
              body := JObject
                [(js "status", JString (js "error"));
                 (js "message", JString (js "Dependency check system failure"));
                 (js "error", JString (errorMessage error));
                 (js "timestamp", JString (toISOString (now w)))] |}, calls')
    end.
Proof.
  intros Hg Hr.
  unfold dependenciesEndpoint, tryCatch, bindT, settle, resolve.
  rewrite Hg. cbn [ToBoolean isArray negb orb]. rewrite Hr.
  destruct (dependencyCheckChain w _ calls) as [[v|e] calls']; reflexivity.
Qed.

(** C7.  For every dependency list, the renderer gives one text per
    dependency, "- name: status (Critical)" when the critical flag is
    true and "- name: status (Non-Critical)" otherwise, in list order
    and joined by line feeds; the status text is copied as it is,
    whatever string it is.  This is the text step 1 of the
    comprehensive chain prepares and the text the dependency endpoint
    hands to the dependency check. *)
Theorem dependencyString_renders (items : list JsValue)
    (deps : list DependencyStatus.t) :
  Forall2 DependencyStatus.represents items deps ->
  dependencyString (JArray items)
  = Return (join newline (List.map DependencyStatus.line deps))
  /\ (forall input systemMetrics rendered original,
        Get input (js "dependencies") = Return (JArray items) ->
        prepareData input = Return (systemMetrics, rendered, original) ->
        rendered = join newline (List.map DependencyStatus.line deps))
  /\ (forall w reqBody calls prompt,
        Get reqBody (js "dependencies") = Return (JArray items) ->
        format w dependencyCheckPrompt
          (JObject [(js "dependencies",
                     JString (join newline (List.map DependencyStatus.line deps)))])
        = Return prompt ->
        snd (dependenciesEndpoint w reqBody calls) = calls ++ [prompt]).
Proof.
  intros H.
  assert (Hs : dependencyString (JArray items)
               = Return (join newline (List.map DependencyStatus.line deps))).
  { unfold dependencyString, Array_map.
    rewrite (mapItems_dependencyLine H). reflexivity. }
  split; [exact Hs|split].
  - intros input systemMetrics rendered original Hg Hp.
    unfold prepareData in Hp.
    repeat match type of Hp with
           | bindO (Get input (js "dependencies")) _ = _ => rewrite Hg in Hp; simpl in Hp
           | bindO (dependencyString _) _ = _ => rewrite Hs in Hp; simpl in Hp
           | bindO ?o _ = _ => destruct o; simpl in Hp; [|discriminate]
           end.
    congruence.
  - intros w reqBody calls prompt Hg Hf.
    rewrite (dependenciesEndpoint_run w reqBody calls Hg Hs).
    rewrite dependencyCheckChain_run, Hf.
    destruct (llm w prompt) as [answer|e]; [|reflexivity].
    destruct (validateDependencyResponse answer); reflexivity.
Qed.

(** ** Time stamp and echo of the input *)

Lemma digit_range (n : Z) : (48 <= digit n <= 57)%N.
Proof.
  unfold digit. pose proof (Z.mod_pos_bound n 10 ltac:(lia)). lia.
Qed.

Lemma pad2_digits (n : Z) : digits 2 (pad2 n).
Proof. split; [reflexivity|]. repeat constructor; apply digit_range. Qed.

Lemma pad3_digits (n : Z) : digits 3 (pad3 n).
Proof. split; [reflexivity|]. repeat constructor; apply digit_range. Qed.

Lemma pad4_digits (n : Z) : digits 4 (pad4 n).
Proof. split; [reflexivity|]. repeat constructor; apply digit_range. Qed.

Lemma pad6_digits (n : Z) : digits 6 (pad6 n).
Proof. split; [reflexivity|]. repeat constructor; apply digit_range. Qed.

Lemma toISOString_isoFormat (t : Z) : isoFormat (toISOString t).
Proof.
  unfold toISOString.
  destruct (civilFromDays (Day t)) as [[y m] d].
  exists (isoYear y), (pad2 m), (pad2 d), (pad2 (HourFromTime t)),
    (pad2 (MinFromTime t)), (pad2 (SecFromTime t)), (pad3 (msFromTime t)).
  split; [reflexivity|].
  split; [|repeat split; try apply pad2_digits; apply pad3_digits].
  unfold isoYear.
  destruct ((0 <=? y)%Z && (y <=? 9999)%Z).
  - left. apply pad4_digits.
  - right. destruct (0 <=? y)%Z.
    + exists 43%N, (pad6 y). repeat split; auto; apply pad6_digits.
    + exists 45%N, (pad6 (- y)). repeat split; auto; apply pad6_digits.
Qed.

(** *** The calendar of [toISOString] is the one of ECMA-262 *)

Local Open Scope Z_scope.

Lemma yearOfEra_bounds (doe : Z) :
  0 <= doe <= 146096 ->
  let yoe := (doe - doe / 1460 + doe / 36524 - doe / 146096) / 365 in
  0 <= yoe <= 399
  /\ 0 <= doe - (365 * yoe + yoe / 4 - yoe / 100)
  /\ doe < 365 * (yoe + 1) + (yoe + 1) / 4 - (yoe + 1) / 100 + (yoe + 1) / 400.
Proof.
  intros H. cbv zeta. Z.to_euclidean_division_equations; lia.
Qed.

(** [civilFromDays] counts 400-year eras, years of the era that start
    on the first of March, and days of such a year. *)
Lemma civilFromDays_march (days : Z) :
  exists era yoe doy mp,
    civilFromDays days
    = (yoe + era * 400 + (if mp <? 10 then 0 else 1),
       if mp <? 10 then mp + 3 else mp - 9,
       doy - firstDayOfMonth mp + 1)
    /\ 0 <= yoe <= 399
    /\ 0 <= mp <= 11
    /\ firstDayOfMonth mp <= doy < firstDayOfMonth (mp + 1)
    /\ days = era * 146097 + (365 * yoe + yoe / 4 - yoe / 100) + doy - 719468
    /\ doy < 365 + (yoe + 1) / 4 - yoe / 4 - (yoe + 1) / 100 + yoe / 100
             + (yoe + 1) / 400.
Proof.
  unfold civilFromDays. cbv zeta.
  set (era := (days + 719468) / 146097).
  set (doe := days + 719468 - era * 146097).
  assert (Hdoe : 0 <= doe <= 146096)
    by (subst doe era; Z.to_euclidean_division_equations; lia).
  destruct (yearOfEra_bounds Hdoe) as (Hyoe & Hlow & Hhigh).
  set (yoe := (doe - doe / 1460 + doe / 36524 - doe / 146096) / 365) in *.
  set (doy := doe - (365 * yoe + yoe / 4 - yoe / 100)) in *.
  assert (Hdays : days = era * 146097 + (365 * yoe + yoe / 4 - yoe / 100) + doy - 719468)
    by (subst doy doe; lia).
  assert (Hlast : doy < 365 + (yoe + 1) / 4 - yoe / 4 - (yoe + 1) / 100 + yoe / 100
                        + (yoe + 1) / 400) by (subst doy; lia).
  assert (Hdoy : 0 <= doy <= 365).
  { split; [exact Hlow|]. clearbody doy yoe. clear Hdays Hhigh.
    Z.to_euclidean_division_equations; lia. }
  clearbody doy. clearbody yoe. clear Hhigh Hlow Hdoe. clearbody era. clear doe.
  set (mp := (5 * doy + 2) / 153).
  exists era, yoe, doy, mp.
  assert (Hmp : 0 <= mp <= 11)
    by (subst mp; Z.to_euclidean_division_equations; lia).
  assert (Hfirst : firstDayOfMonth mp <= doy < firstDayOfMonth (mp + 1))
    by (unfold firstDayOfMonth; subst mp; Z.to_euclidean_division_equations; lia).
  repeat split; try lia.
  f_equal. f_equal. f_equal.
  destruct (Z.ltb_spec mp 10).
  - destruct (Z.leb_spec (mp + 3) 2); lia.
  - destruct (Z.leb_spec (mp - 9) 2); lia.
Qed.

Lemma InLeapYear_days (y : Z) :
  InLeapYear y = DayFromYear (y + 1) - DayFromYear y - 365.
Proof.
  unfold InLeapYear, DayFromYear.
  destruct (Z.eqb_spec (y mod 4) 0), (Z.eqb_spec (y mod 100) 0),
    (Z.eqb_spec (y mod 400) 0); cbn [negb andb orb];
    Z.to_euclidean_division_equations; lia.
Qed.

Lemma InLeapYear_range (y : Z) : 0 <= InLeapYear y <= 1.
Proof. unfold InLeapYear. destruct (_ && _); lia. Qed.

(** The first of January after the March that starts year [yoe] of
    era [era]. *)
Lemma DayFromYear_march (era yoe : Z) :
  0 <= yoe <= 399 ->
  DayFromYear (yoe + era * 400 + 1)
  = era * 146097 + (365 * yoe + yoe / 4 - yoe / 100) - 719162.
Proof.
  intros H. unfold DayFromYear. Z.to_euclidean_division_equations; lia.
Qed.

(** The fields [civilFromDays] computes are the ones ECMA-262 defines:
    [YearFromTime], [MonthFromTime] (counted from 0) and [DateFromTime]. *)
Lemma civilFromDays_fields (days : Z) :
  let '(y, m, d) := civilFromDays days in
  DayFromYear y <= days < DayFromYear (y + 1)
  /\ m = MonthFromTime (days - DayFromYear y) (InLeapYear y) + 1
  /\ d = DateFromTime (days - DayFromYear y) (InLeapYear y).
Proof.
  destruct (civilFromDays_march days)
    as (era & yoe & doy & mp & -> & Hyoe & Hmp & Hdoy & Hdays & Hlast).
  pose proof (DayFromYear_march era Hyoe) as HK.
  assert (Hy : exists y,
             y = yoe + era * 400 + (if mp <? 10 then 0 else 1)
             /\ days - DayFromYear y
                = (if mp <? 10 then doy + 59 + InLeapYear y else doy - 306)
             /\ (10 <= mp -> doy < 365 + InLeapYear y)
             /\ 0 <= InLeapYear y <= 1
             /\ InLeapYear y = DayFromYear (y + 1) - DayFromYear y - 365).
  { eexists. split; [reflexivity|].
    split; [|split; [|split; [apply InLeapYear_range | apply InLeapYear_days]]].
    - destruct (Z.ltb_spec mp 10); rewrite ?Z.add_0_r.
      + rewrite InLeapYear_days. lia.
      + lia.
    - intros Hjf. destruct (Z.ltb_spec mp 10); [lia|].
      rewrite InLeapYear_days. clear HK Hdays.
      unfold DayFromYear. Z.to_euclidean_division_equations; lia. }
  destruct Hy as (y & <- & Hdwy & Hfeb & HR & HL).
  assert (Hmar : mp < 10 -> 0 <= doy < 306).
  { intros Hm. unfold firstDayOfMonth in Hdoy.
    Z.to_euclidean_division_equations; lia. }
  assert (Hjan : 10 <= mp -> 306 <= doy).
  { intros Hm. unfold firstDayOfMonth in Hdoy.
    Z.to_euclidean_division_equations; lia. }
  split.
  { revert Hdwy. destruct (Z.ltb_spec mp 10); intros Hdwy; lia. }
  clear HK HL Hdays Hlast Hyoe Hmar Hjan.
  set (dwy := days - DayFromYear y) in *. clearbody dwy.
  set (leap := InLeapYear y) in *. clearbody leap.
  assert (Hcases : mp = 0 \/ mp = 1 \/ mp = 2 \/ mp = 3 \/ mp = 4 \/ mp = 5 \/ mp = 6
                   \/ mp = 7 \/ mp = 8 \/ mp = 9 \/ mp = 10 \/ mp = 11) by lia.
  unfold DateFromTime, MonthFromTime.
  repeat (destruct Hcases as [-> | Hcases]); [.. | subst mp];
    cbv [firstDayOfMonth] in Hdoy |- *;
    cbn in Hdoy, Hdwy;
    repeat match goal with
           | |- context [?a <? ?b] =>
               destruct (Z.ltb_spec a b); cbv beta iota; try lia
           end;
    Z.to_euclidean_division_equations; lia.
Qed.

(** Hence [toISOString] prints the year, month, day and time of day
    that ECMA-262 assigns to the time value. *)
Lemma toISOString_fields (t : Z) :
  exists y,
    DayFromYear y <= Day t < DayFromYear (y + 1)
    /\ toISOString t
       = (isoYear y ++ js "-"
            ++ pad2 (MonthFromTime (Day t - DayFromYear y) (InLeapYear y) + 1)
            ++ js "-"
            ++ pad2 (DateFromTime (Day t - DayFromYear y) (InLeapYear y))
            ++ js "T" ++ pad2 (HourFromTime t) ++ js ":" ++ pad2 (MinFromTime t)
            ++ js ":" ++ pad2 (SecFromTime t) ++ js "." ++ pad3 (msFromTime t)
            ++ js "Z")%list.
Proof.
  pose proof (civilFromDays_fields (Day t)) as H. unfold toISOString.
  destruct (civilFromDays (Day t)) as [[y m] d].
  destruct H as (Hy & -> & ->). exists y. split; [exact Hy | reflexivity].
Qed.

(** The digits printed denote the fields. *)
Lemma digit_value (n : Z) : Z.of_N (digit n) - 48 = n mod 10.
Proof.
  unfold digit. pose proof (Z.mod_pos_bound n 10 ltac:(lia)).
  rewrite Z2N.id by lia. lia.
Qed.

Lemma numeral_pad2 (n : Z) : 0 <= n < 100 -> numeral (pad2 n) = n.
Proof.
  intros H. unfold numeral, pad2. cbn [fold_left]. rewrite !digit_value.
  Z.to_euclidean_division_equations; lia.
Qed.

Lemma numeral_pad3 (n : Z) : 0 <= n < 1000 -> numeral (pad3 n) = n.
Proof.
  intros H. unfold numeral, pad3. cbn [fold_left]. rewrite !digit_value.
  Z.to_euclidean_division_equations; lia.
Qed.

Lemma numeral_pad4 (n : Z) : 0 <= n < 10000 -> numeral (pad4 n) = n.
Proof.
  intros H. unfold numeral, pad4, pad3. cbn [fold_left]. rewrite !digit_value.
  Z.to_euclidean_division_equations; lia.
Qed.

Local Close Scope Z_scope.

Example toISOString_epoch :
  toISOString 0 = js "1970-01-01T00:00:00.000Z".
Proof. reflexivity. Qed.

Example toISOString_leap_day :
  toISOString 1709251199999 = js "2024-02-29T23:59:59.999Z".
Proof. reflexivity. Qed.

Example toISOString_before_epoch :
  toISOString (-1) = js "1969-12-31T23:59:59.999Z".
Proof. reflexivity. Qed.

Example toISOString_last_instant :
  toISOString 8640000000000000 = js "+275760-09-13T00:00:00.000Z".
Proof. reflexivity. Qed.

(** C8.  Every result of the comprehensive chain carries the time of
    the clock as an ISO-8601 string, and in [checkedComponents] the
    five metric values of the input as they were given and the number
    of its dependencies. *)
Theorem comprehensiveHealthChain_stamp_and_echo (w : World) (input : JsValue)
    (calls calls' : list jsstring) (r : ComprehensiveResult) :
  comprehensiveHealthChain w input calls = (Return r, calls') ->
  timestamp r = toISOString (now w)
  /\ isoFormat (timestamp r)
  /\ Get input (js "cpuUsage") = Return (cpu (checkedComponents r))
  /\ Get input (js "memoryUsage") = Return (memory (checkedComponents r))
  /\ Get input (js "diskUsage") = Return (disk (checkedComponents r))
  /\ Get input (js "responseTime") = Return (responseTime (checkedComponents r))
  /\ Get input (js "errorRate") = Return (errorRate (checkedComponents r))
  /\ exists items,
       Get input (js "dependencies") = Return (JArray items)
       /\ dependencies (checkedComponents r)
          = JNumber (numberOfZ (Z.of_nat (List.length items))).
Proof.
  intros Hrun. apply comprehensiveHealthChain_inv in Hrun.
  destruct Hrun as (metrics & rendered & s & d & c1 & Hp & _ & _ & Hr).
  apply applyBusinessLogic_inv in Hr. cbv zeta in Hr.
  destruct Hr as (_ & _ & _ & _ & Ht & H1 & H2 & H3 & H4 & H5 & deps & Hg & Hl).
  rewrite Ht. repeat split; try assumption; try apply toISOString_isoFormat.
  (* the preparation succeeded, so the dependencies are an array *)
  unfold prepareData in Hp.
  repeat match type of Hp with
         | bindO (Get input (js "dependencies")) _ = _ => rewrite Hg in Hp; simpl in Hp
         | bindO (Get input _) _ = _ =>
             destruct (Get input _); simpl in Hp; [|discriminate]
         end.
  destruct deps as [| | | | |items|];
    try (unfold dependencyString, Array_map, fault in Hp; simpl in Hp; discriminate).
  exists items. split; [exact Hg|].
  simpl in Hl. congruence.
Qed.

(** ** The dependency endpoint *)

(** X18.  For a request that has a body: when [req.body] has no
    [dependencies] property, or has one that is not an array, the
    endpoint answers 400 "Dependencies array is required in request
    body" from its guard, and the model has not been called: the list
    of prompts sent is unchanged. *)
Theorem dependenciesEndpoint_requires_array (w : World)
    (reqBody dependencies' : JsValue) (calls : list jsstring) :
  Get reqBody (js "dependencies") = Return dependencies' ->
  dependencies' = JUndefined \/ isArray dependencies' = false ->
  dependenciesEndpoint w reqBody calls
  = (Return
       {| statusCode := 400%Z;
          body := JObject
            [(js "status", JString (js "error"));
             (js "message",
              JString (js "Dependencies array is required in request body"))] |},
     calls).
Proof.
  intros Hg Hd.
  assert (Ha : isArray dependencies' = false) by (destruct Hd; subst; auto).
  unfold dependenciesEndpoint, tryCatch, bindT, settle, resolve.
  rewrite Hg, Ha. cbn [negb]. rewrite orb_true_r. reflexivity.
Qed.

(** C10.  When the dependency check of the endpoint returns a verdict,
    the response is 200 with status "healthy" exactly when the verdict
    is DEPENDENCIES_HEALTHY, and 500 with status "unhealthy" for any
    other verdict.  PARTIAL_DEPENDENCY is thus reported unhealthy
    here, although in the comprehensive chain it leaves a HEALTHY
    overall status as it is. *)
Theorem dependenciesEndpoint_status (w : World) (reqBody : JsValue)
    (items : list JsValue) (rendered verdict : jsstring)
    (calls calls' : list jsstring) :
  Get reqBody (js "dependencies") = Return (JArray items) ->
  dependencyString (JArray items) = Return rendered ->
  dependencyCheckChain w (JObject [(js "dependencies", JString rendered)]) calls
  = (Return verdict, calls') ->
  exists response,
    dependenciesEndpoint w reqBody calls = (Return response, calls')
    /\ Get (body response) (js "dependencyHealth") = Return (JString verdict)
    /\ ((statusCode response = 200%Z
         /\ Get (body response) (js "status") = Return (JString (js "healthy")))
        <-> verdict = DEPENDENCIES_HEALTHY)
    /\ (verdict <> DEPENDENCIES_HEALTHY ->
        statusCode response = 500%Z
        /\ Get (body response) (js "status") = Return (JString (js "unhealthy")))
    /\ (verdict = PARTIAL_DEPENDENCY ->
        statusCode response = 500%Z
        /\ Get (body response) (js "status") = Return (JString (js "unhealthy"))
        /\ fst (checkDependencyHealth verdict (checkSystemHealth HEALTHY (HEALTHY, [])))
           = HEALTHY).
Proof.
  intros Hg Hr Hc.
  rewrite (dependenciesEndpoint_run w reqBody calls Hg Hr), Hc. cbv zeta.
  eexists. split; [reflexivity|].
  cbn [statusCode body].
  destruct (String_eqb_spec verdict DEPENDENCIES_HEALTHY) as [E|E].
  - repeat split; intros; subst; try reflexivity; try congruence; discriminate.
  - repeat split; intros; subst; try reflexivity; try congruence.
    destruct H as [H _]. discriminate.
Qed.

(** C9.  A request without a body is not rejected by the guard of the
    dependency endpoint.  The destructuring of the missing [req.body]
    raises a [TypeError] before the guard is reached, and the handler
    of the endpoint answers 500 "Dependency check system failure" with
    the message of that error, whereas the request with the empty body
    [{}], which has no [dependencies] either, is answered 400 by the
    guard.  The model is called in neither case. *)
Theorem dependenciesEndpoint_without_body (w : World) (calls : list jsstring) :
  Get JUndefined (js "dependencies")
  = Throw (TypeError (faultMessage (ReadOfNullish JUndefined (js "dependencies"))))
  /\ dependenciesEndpoint w JUndefined calls
     = (Return
          {| statusCode := 500%Z;
             body := JObject
               [(js "status", JString (js "error"));
                (js "message", JString (js "Dependency check system failure"));
                (js "error",
                 JString (faultMessage (ReadOfNullish JUndefined (js "dependencies"))));
                (js "timestamp", JString (toISOString (now w)))] |},
        calls)
  /\ (forall response,
        fst (dependenciesEndpoint w JUndefined calls) = Return response ->
        statusCode response <> 400%Z)
  /\ dependenciesEndpoint w (JObject []) calls
     = (Return
          {| statusCode := 400%Z;
             body := JObject
               [(js "status", JString (js "error"));
                (js "message",
                 JString (js "Dependencies array is required in request body"))] |},
        calls).
Proof.
  split; [reflexivity|]. split; [reflexivity|]. split; [|reflexivity].
  intros response Hresponse. cbn in Hresponse.
  injection Hresponse as <-. discriminate.
Qed.

(** * Further properties of the chains and the endpoints *)

(** ** The validators ignore surrounding white space and ASCII case *)

Lemma trimStart_app (s t : jsstring) :
  trimStart (s ++ t)
  = match trimStart s with
    | [] => trimStart t
    | _ => trimStart s ++ t
    end.
Proof.
  induction s as [|u s IH]; [reflexivity|].
  cbn [app trimStart]. destruct (isWhiteSpace u); [exact IH | reflexivity].
Qed.

Lemma trimStart_all_whitespace (ws : jsstring) :
  forallb isWhiteSpace ws = true -> trimStart ws = [].
Proof.
  intros H. rewrite <- (app_nil_r ws). now rewrite trimStart_whitespace.
Qed.

Lemma trim_surrounding_whitespace (ws1 s ws2 : jsstring) :
  forallb isWhiteSpace ws1 = true ->
  forallb isWhiteSpace ws2 = true ->
  trim (ws1 ++ s ++ ws2) = trim s.
Proof.
  intros H1 H2. unfold trim.
  rewrite trimStart_whitespace by assumption. rewrite trimStart_app.
  destruct (trimStart s) as [|u r] eqn:E.
  - rewrite trimStart_all_whitespace by assumption. reflexivity.
  - now apply trimEnd_whitespace.
Qed.

Lemma isWhiteSpace_asciiUpper (c : N) :
  isWhiteSpace (asciiUpper c) = isWhiteSpace c.
Proof.
  unfold asciiUpper.
  destruct ((97 <=? c) && (c <=? 122))%N eqn:E; [|reflexivity].
  apply andb_true_iff in E as [E1 E2]. apply N.leb_le in E1, E2.
  rewrite !isWhiteSpace_printable by lia. reflexivity.
Qed.

Lemma trimStart_asciiUpper (s : jsstring) :
  trimStart (List.map asciiUpper s) = List.map asciiUpper (trimStart s).
Proof.
  induction s as [|u s IH]; [reflexivity|].
  cbn [List.map trimStart]. rewrite isWhiteSpace_asciiUpper.
  destruct (isWhiteSpace u); [exact IH | reflexivity].
Qed.

Lemma trim_asciiUpper (s : jsstring) :
  trim (List.map asciiUpper s) = List.map asciiUpper (trim s).
Proof.
  unfold trim, trimEnd.
  now rewrite trimStart_asciiUpper, <- map_rev, trimStart_asciiUpper, map_rev.
Qed.

Lemma trimStart_Forall (P : N -> Prop) (s : jsstring) :
  Forall P s -> Forall P (trimStart s).
Proof.
  induction 1 as [|u s Hu Hs IH]; [constructor|].
  cbn [trimStart]. destruct (isWhiteSpace u); [exact IH | now constructor].
Qed.

Lemma trim_Forall (P : N -> Prop) (s : jsstring) :
  Forall P s -> Forall P (trim s).
Proof.
  intros H. unfold trim, trimEnd.
  apply Forall_rev, trimStart_Forall, Forall_rev, trimStart_Forall, H.
Qed.

(** The text both validators compare, for an ASCII response. *)
Lemma normalize_ascii (s : jsstring) :
  Forall (fun c => (c < 128)%N) s ->
  toUpperCase (trim s) = trim (List.map asciiUpper s).
Proof.
  intros H. rewrite toUpperCase_ascii by now apply trim_Forall.
  symmetry. apply trim_asciiUpper.
Qed.

(** X1.  White space around a response changes the verdict of neither
    validator: a response is accepted with a verdict exactly when the
    response without the surrounding white space is. *)
Theorem validators_ignore_surrounding_whitespace (ws1 response ws2 verdict : jsstring) :
  forallb isWhiteSpace ws1 = true ->
  forallb isWhiteSpace ws2 = true ->
  (validateHealthResponse (ws1 ++ response ++ ws2) = Return verdict
   <-> validateHealthResponse response = Return verdict)
  /\ (validateDependencyResponse (ws1 ++ response ++ ws2) = Return verdict
      <-> validateDependencyResponse response = Return verdict).
Proof.
  intros H1 H2.
  unfold validateHealthResponse, validateDependencyResponse.
  rewrite (trim_surrounding_whitespace _ response _ H1 H2).
  split.
  - destruct (String_eqb (toUpperCase (trim response)) HEALTHY
              || String_eqb (toUpperCase (trim response)) UNHEALTHY);
      split; intros H; try exact H; discriminate.
  - destruct (includes validResponses (toUpperCase (trim response)));
      split; intros H; try exact H; discriminate.
Qed.

(** X2.  On ASCII responses both validators are case-insensitive: two
    responses that differ only in the case of their letters get the
    same verdict, or are both refused. *)
Theorem validators_ignore_ascii_case (response1 response2 verdict : jsstring) :
  Forall (fun c => (c < 128)%N) response1 ->
  Forall (fun c => (c < 128)%N) response2 ->
  List.map asciiUpper response1 = List.map asciiUpper response2 ->
  (validateHealthResponse response1 = Return verdict
   <-> validateHealthResponse response2 = Return verdict)
  /\ (validateDependencyResponse response1 = Return verdict
      <-> validateDependencyResponse response2 = Return verdict).
Proof.
  intros A1 A2 E.
  assert (Hn : toUpperCase (trim response1) = toUpperCase (trim response2))
    by (rewrite !normalize_ascii by assumption; now rewrite E).
  unfold validateHealthResponse, validateDependencyResponse. rewrite Hn.
  split.
  - destruct (String_eqb (toUpperCase (trim response2)) HEALTHY
              || String_eqb (toUpperCase (trim response2)) UNHEALTHY);
      split; intros H; try exact H; discriminate.
  - destruct (includes validResponses (toUpperCase (trim response2)));
      split; intros H; try exact H; discriminate.
Qed.

(** X3.  A verdict is a fixed point of its validator: validating a
    verdict that a validator returned gives the same verdict again. *)
Theorem validators_idempotent (response verdict : jsstring) :
  (validateHealthResponse response = Return verdict ->
   validateHealthResponse verdict = Return verdict)
  /\ (validateDependencyResponse response = Return verdict ->
      validateDependencyResponse verdict = Return verdict).
Proof.
  split; intros H.
  - destruct (validateHealthResponse_cases response) as [[E Hv] | [E _]];
      rewrite E in H; [|discriminate].
    injection H as <-. destruct Hv as [-> | ->]; reflexivity.
  - destruct (validateDependencyResponse_cases response) as [[E Hv] | [E _]];
      rewrite E in H; [|discriminate].
    injection H as <-. destruct Hv as [-> | [-> | ->]]; reflexivity.
Qed.

(** ** The comprehensive chain, step by step *)

Lemma merged_reasoning (systemHealth' dependencyHealth' : jsstring) :
  snd (checkDependencyHealth dependencyHealth'
         (checkSystemHealth systemHealth' (HEALTHY, [])))
  = [if String_eqb systemHealth' UNHEALTHY
     then js "System metrics indicate unhealthy state"
     else js "System metrics are within healthy ranges";
     if String_eqb dependencyHealth' DEPENDENCY_FAILURE
     then js "Critical dependencies are failing"
     else if String_eqb dependencyHealth' PARTIAL_DEPENDENCY
          then js "Some non-critical dependencies are down"
          else js "All dependencies are healthy"].
Proof.
  unfold checkDependencyHealth, checkSystemHealth.
  destruct (String_eqb systemHealth' UNHEALTHY);
    destruct (String_eqb dependencyHealth' DEPENDENCY_FAILURE);
    destruct (String_eqb dependencyHealth' PARTIAL_DEPENDENCY); reflexivity.
Qed.

(** A result of the chain, with its verdicts validated and its status
    and reasoning as step 3 computes them. *)
Lemma comprehensiveHealthChain_result (w : World) (input : JsValue)
    (calls calls' : list jsstring) (r : ComprehensiveResult) :
  comprehensiveHealthChain w input calls = (Return r, calls') ->
  (systemHealth r = HEALTHY \/ systemHealth r = UNHEALTHY)
  /\ (dependencyHealth r = DEPENDENCY_FAILURE
      \/ dependencyHealth r = PARTIAL_DEPENDENCY
      \/ dependencyHealth r = DEPENDENCIES_HEALTHY)
  /\ status r
     = (if String_eqb (systemHealth r) UNHEALTHY
           || String_eqb (dependencyHealth r) DEPENDENCY_FAILURE
        then UNHEALTHY else HEALTHY)
  /\ reasoning r
     = snd (checkDependencyHealth (dependencyHealth r)
              (checkSystemHealth (systemHealth r) (HEALTHY, []))).
Proof.
  intros Hrun. apply comprehensiveHealthChain_inv in Hrun.
  destruct Hrun as (metrics & deps & s & d & c1 & _ & Hh & Hd & Hr).
  apply applyBusinessLogic_inv in Hr. cbv zeta in Hr.
  destruct Hr as (Hst & Hre & -> & -> & _).
  rewrite Hst, Hre, merged_status. repeat split.
  - eapply healthAnalysisChain_verdict; eassumption.
  - eapply dependencyCheckChain_verdict; eassumption.
Qed.

(** X4.  The reasoning of every comprehensive result has exactly two
    entries, the one on the system metrics first and the one on the
    dependencies second, and each entry tells its verdict: "All
    dependencies are healthy" stands there only for the verdict
    DEPENDENCIES_HEALTHY. *)
Theorem reasoning_two_entries (w : World) (input : JsValue)
    (calls calls' : list jsstring) (r : ComprehensiveResult) :
  comprehensiveHealthChain w input calls = (Return r, calls') ->
  exists onSystem onDependencies,
    reasoning r = [onSystem; onDependencies]
    /\ (systemHealth r = UNHEALTHY ->
        onSystem = js "System metrics indicate unhealthy state")
    /\ (systemHealth r = HEALTHY ->
        onSystem = js "System metrics are within healthy ranges")
    /\ (dependencyHealth r = DEPENDENCY_FAILURE ->
        onDependencies = js "Critical dependencies are failing")
    /\ (dependencyHealth r = PARTIAL_DEPENDENCY ->
        onDependencies = js "Some non-critical dependencies are down")
    /\ (onDependencies = js "All dependencies are healthy"
        <-> dependencyHealth r = DEPENDENCIES_HEALTHY).
Proof.
  intros Hrun.
  destruct (comprehensiveHealthChain_result _ _ _ Hrun) as (Hs & Hd & _ & Hre).
  rewrite merged_reasoning in Hre. rewrite Hre.
  eexists. eexists. split; [reflexivity|].
  repeat split.
  - intros ->. reflexivity.
  - intros ->. reflexivity.
  - intros ->. reflexivity.
  - intros ->. reflexivity.
  - destruct Hd as [-> | [-> | ->]]; [discriminate | discriminate | reflexivity].
  - intros ->. reflexivity.
Qed.

Lemma Get_after_Get (v : JsValue) (key key' : jsstring) (x : JsValue) :
  Get v key = Return x -> exists y, Get v key' = Return y.
Proof.
  destruct v; try discriminate; intros _; unfold Get; try (now eexists).
  destruct (lookup key' props); now eexists.
Qed.

Lemma prepareData_requires_array (input dependencies' : JsValue) :
  Get input (js "dependencies") = Return dependencies' ->
  isArray dependencies' = false ->
  exists fault',
    prepareData input = Throw (TypeError (faultMessage fault'))
    /\ (fault' = ReadOfNullish dependencies' (js "map")
        \/ fault' = NotAFunction (js "map")).
Proof.
  intros Hg Ha.
  destruct (@Get_after_Get input _ (js "cpuUsage") _ Hg) as [v1 H1].
  destruct (@Get_after_Get input _ (js "memoryUsage") _ Hg) as [v2 H2].
  destruct (@Get_after_Get input _ (js "diskUsage") _ Hg) as [v3 H3].
  destruct (@Get_after_Get input _ (js "responseTime") _ Hg) as [v4 H4].
  destruct (@Get_after_Get input _ (js "errorRate") _ Hg) as [v5 H5].
  assert (Hmap : exists fault',
             Array_map dependencies' dependencyLine = Throw (TypeError (faultMessage fault'))
             /\ (fault' = ReadOfNullish dependencies' (js "map")
                 \/ fault' = NotAFunction (js "map"))).
  { destruct dependencies'; try discriminate; eexists; (split; [reflexivity|]); auto. }
  destruct Hmap as (fault' & Hmap & Hkind). exists fault'.
  split; [|exact Hkind].
  unfold prepareData, dependencyString.
  rewrite H1, H2, H3, H4, H5, Hg. cbn [bindO]. rewrite Hmap. reflexivity.
Qed.

(** X5.  When [input.dependencies] is not an array, step 1 of the chain
    raises a [TypeError] at [.map]: the comprehensive chain and the
    master chain fail with that error as it is (it is not wrapped as
    "Health check failed: ..."), and the model has not been called. *)
Theorem comprehensiveHealthChain_requires_array (w : World)
    (input dependencies' : JsValue) (calls : list jsstring) :
  Get input (js "dependencies") = Return dependencies' ->
  isArray dependencies' = false ->
  exists fault',
    comprehensiveHealthChain w input calls
    = (Throw (TypeError (faultMessage fault')), calls)
    /\ masterHealthCheckChain w input calls
       = (Throw (TypeError (faultMessage fault')), calls)
    /\ (fault' = ReadOfNullish dependencies' (js "map")
        \/ fault' = NotAFunction (js "map")).
Proof.
  intros Hg Ha.
  destruct (prepareData_requires_array _ Hg Ha) as (fault' & Hp & Hkind).
  exists fault'.
  unfold masterHealthCheckChain, comprehensiveHealthChain, bindT, settle.
  rewrite Hp. repeat split; auto.
Qed.

Lemma healthAnalysisChain_calls (w : World) (input : JsValue) (calls : list jsstring) :
  exists sent,
    snd (healthAnalysisChain w input calls) = calls ++ sent
    /\ (sent = []
        \/ exists prompt, sent = [prompt]
                          /\ format w healthAnalysisPrompt input = Return prompt)
    /\ (forall verdict,
          fst (healthAnalysisChain w input calls) = Return verdict -> sent <> []).
Proof.
  rewrite healthAnalysisChain_run.
  destruct (format w healthAnalysisPrompt input) as [prompt|e].
  - exists [prompt]. destruct (llm w prompt); cbn [fst snd];
      (split; [reflexivity|]); (split; [right; now exists prompt|]);
      intros; discriminate.
  - exists []. cbn [fst snd]. rewrite app_nil_r.
    split; [reflexivity|]. split; [now left|]. intros; discriminate.
Qed.

Lemma dependencyCheckChain_calls (w : World) (input : JsValue) (calls : list jsstring) :
  exists sent,
    snd (dependencyCheckChain w input calls) = calls ++ sent
    /\ (sent = []
        \/ exists prompt, sent = [prompt]
                          /\ format w dependencyCheckPrompt input = Return prompt)
    /\ (forall verdict,
          fst (dependencyCheckChain w input calls) = Return verdict -> sent <> []).
Proof.
  rewrite dependencyCheckChain_run.
  destruct (format w dependencyCheckPrompt input) as [prompt|e].
  - exists [prompt]. destruct (llm w prompt); cbn [fst snd];
      (split; [reflexivity|]); (split; [right; now exists prompt|]);
      intros; discriminate.
  - exists []. cbn [fst snd]. rewrite app_nil_r.
    split; [reflexivity|]. split; [now left|]. intros; discriminate.
Qed.

Lemma prepareData_original (input systemMetrics original : JsValue)
    (rendered : jsstring) :
  prepareData input = Return (systemMetrics, rendered, original) -> original = input.
Proof.
  intros Ep. unfold prepareData in Ep.
  repeat match type of Ep with
         | bindO ?o _ = _ => destruct o; simpl in Ep; [|discriminate]
         end.
  congruence.
Qed.

(** The whole chain on a prepared input. *)
Lemma comprehensiveHealthChain_run (w : World) (input systemMetrics : JsValue)
    (rendered : jsstring) (calls : list jsstring) :
  prepareData input = Return (systemMetrics, rendered, input) ->
  comprehensiveHealthChain w input calls
  = let health := healthAnalysisChain w systemMetrics calls in
    let deps := dependencyCheckChain w
                  (JObject [(js "dependencies", JString rendered)])
                  (snd health) in
    (match fst health, fst deps with
     | Return x, Return y => applyBusinessLogic w (x, y, input)
     | Throw e, Return _ | Return _, Throw e =>
         Throw (Error (js "Health check failed: " ++ errorMessage e))
     | Throw e1, Throw e2 =>
         Throw (Error (js "Health check failed: "
                         ++ errorMessage (if healthSettlesFirst w then e1 else e2)))
     end, snd deps).
Proof.
  intros Hp. unfold comprehensiveHealthChain, bindT, settle.
  rewrite Hp, runBothChecks_run. cbv zeta.
  destruct (fst (healthAnalysisChain w systemMetrics calls));
    destruct (fst (dependencyCheckChain w _ _)); reflexivity.
Qed.

(** X6.  One comprehensive evaluation sends at most two prompts to the
    model and never removes an earlier one from the record; when it
    returns a result it has sent exactly two, the health prompt and
    then the dependency prompt, each formatted from its template. *)
Theorem comprehensiveHealthChain_calls (w : World) (input : JsValue)
    (calls : list jsstring) :
  exists sent,
    snd (comprehensiveHealthChain w input calls) = calls ++ sent
    /\ (List.length sent <= 2)%nat
    /\ (forall r,
          fst (comprehensiveHealthChain w input calls) = Return r ->
          exists systemMetrics rendered prompt1 prompt2,
            prepareData input = Return (systemMetrics, rendered, input)
            /\ format w healthAnalysisPrompt systemMetrics = Return prompt1
            /\ format w dependencyCheckPrompt
                 (JObject [(js "dependencies", JString rendered)]) = Return prompt2
            /\ sent = [prompt1; prompt2]).
Proof.
  destruct (prepareData input) as [[[systemMetrics rendered] original]|e] eqn:Ep.
  2:{ exists []. unfold comprehensiveHealthChain, bindT, settle. rewrite Ep.
      cbn [fst snd]. rewrite app_nil_r.
      split; [reflexivity|]. split; [cbn; lia|]. intros; discriminate. }
  pose proof (prepareData_original _ Ep) as ->.
  rewrite (comprehensiveHealthChain_run w calls Ep). cbv zeta. cbn [fst snd].
  destruct (healthAnalysisChain_calls w systemMetrics calls)
    as (sent1 & Hs1 & Hk1 & Hn1).
  destruct (dependencyCheckChain_calls w
              (JObject [(js "dependencies", JString rendered)])
              (snd (healthAnalysisChain w systemMetrics calls)))
    as (sent2 & Hs2 & Hk2 & Hn2).
  exists (sent1 ++ sent2).
  split; [rewrite Hs2, Hs1, app_assoc; reflexivity|].
  split.
  { rewrite length_app.
    destruct Hk1 as [-> | (p1 & -> & _)]; destruct Hk2 as [-> | (p2 & -> & _)];
      cbn; lia. }
  intros r Hr.
  destruct (fst (healthAnalysisChain w systemMetrics calls)) as [x|e1] eqn:Eh;
    destruct (fst (dependencyCheckChain w
                     (JObject [(js "dependencies", JString rendered)])
                     (snd (healthAnalysisChain w systemMetrics calls))))
      as [y|e2] eqn:Ed; try discriminate.
  destruct Hk1 as [-> | (p1 & -> & Hf1)]; [now destruct (Hn1 x eq_refl)|].
  destruct Hk2 as [-> | (p2 & -> & Hf2)]; [now destruct (Hn2 y eq_refl)|].
  exists systemMetrics, rendered, p1, p2. repeat split; assumption.
Qed.

(** X7.  Through the master chain the status code and the
    recommendations always agree with the verdicts: the response is 200
    exactly when its overall status is HEALTHY, which is exactly when
    the system verdict is HEALTHY and the dependency verdict is not
    DEPENDENCY_FAILURE, and then there is no recommendation; otherwise
    it is 500 and carries at least one recommendation. *)
Theorem masterHealthCheckChain_consistent (w : World) (input : JsValue)
    (calls calls' : list jsstring) (response : FormattedResponse) :
  masterHealthCheckChain w input calls = (Return response, calls') ->
  (httpStatus response = 200%Z \/ httpStatus response = 500%Z)
  /\ (httpStatus response = 200%Z <-> status (details response) = HEALTHY)
  /\ (httpStatus response = 200%Z
      <-> systemHealth (details response) = HEALTHY
          /\ dependencyHealth (details response) <> DEPENDENCY_FAILURE)
  /\ (httpStatus response = 200%Z <-> recommendations response = [])
  /\ (httpStatus response = 500%Z -> recommendations response <> []).
Proof.
  unfold masterHealthCheckChain, bindT, resolve.
  destruct (comprehensiveHealthChain w input calls) as [[r|e] c] eqn:Erun;
    [|discriminate].
  intros [= <- <-].
  destruct (comprehensiveHealthChain_result _ _ _ Erun) as (Hs & _ & Hst & _).
  pose proof HEALTHY_neq_UNHEALTHY as Hne.
  revert Hst.
  unfold conditionalResponseChain, unhealthyResponseChain, healthyResponseChain.
  destruct (String_eqb_spec (systemHealth r) UNHEALTHY) as [Es | Es];
    destruct (String_eqb_spec (dependencyHealth r) DEPENDENCY_FAILURE) as [Ed | Ed];
    cbn [orb]; intros Hst; rewrite Hst;
    first [ replace (String_eqb UNHEALTHY HEALTHY) with false by reflexivity
          | replace (String_eqb HEALTHY HEALTHY) with true by reflexivity ];
    cbn [httpStatus recommendations details app];
    intuition (try congruence; try discriminate).
Qed.

(** ** The dependency endpoint, all cases *)

Lemma mapItems_null (items : list JsValue) :
  In JNull items -> exists e, mapItems dependencyLine items = Throw e.
Proof.
  induction items as [|v items IH]; [intros []|].
  intros [-> | Hin].
  - eexists. reflexivity.
  - cbn [mapItems]. destruct (dependencyLine v) as [line|e]; [|now exists e].
    destruct (IH Hin) as [e He]. exists e. cbn [bindO]. now rewrite He.
Qed.

(** The endpoint, once [req.body.dependencies] is an array that does
    not render. *)
Lemma dependenciesEndpoint_render_failure (w : World) (reqBody : JsValue)
    (items : list JsValue) (e : JsError) (calls : list jsstring) :
  Get reqBody (js "dependencies") = Return (JArray items) ->
  dependencyString (JArray items) = Throw e ->
  dependenciesEndpoint w reqBody calls
  = (Return
       {| statusCode := 500%Z;
          body := JObject
            [(js "status", JString (js "error"));
             (js "message", JString (js "Dependency check system failure"));
             (js "error", JString (errorMessage e));
             (js "timestamp", JString (toISOString (now w)))] |}, calls).
Proof.
  intros Hg Hr. unfold dependenciesEndpoint, tryCatch, bindT, settle, resolve.
  rewrite Hg. cbn [ToBoolean isArray negb orb]. rewrite Hr. reflexivity.
Qed.

(** X8.  The dependency endpoint always answers, with 200, 400 or 500,
    and sends at most one prompt to the model.  For a request with a
    body it answers 400 exactly when [dependencies] is not an array (an
    empty array is accepted), and a 200 answer is always backed by one
    call of the model. *)
Theorem dependenciesEndpoint_answers (w : World) (reqBody : JsValue)
    (calls : list jsstring) :
  exists response sent,
    dependenciesEndpoint w reqBody calls = (Return response, calls ++ sent)
    /\ (statusCode response = 200%Z \/ statusCode response = 400%Z
        \/ statusCode response = 500%Z)
    /\ (List.length sent <= 1)%nat
    /\ (forall dependencies',
          Get reqBody (js "dependencies") = Return dependencies' ->
          (statusCode response = 400%Z <-> isArray dependencies' = false))
    /\ (statusCode response = 200%Z -> List.length sent = 1%nat).
Proof.
  assert (Hcases :
            forall code sent,
              (code = 200%Z \/ code = 400%Z \/ code = 500%Z) ->
              (List.length sent <= 1)%nat ->
              (forall d, Get reqBody (js "dependencies") = Return d ->
                         (code = 400%Z <-> isArray d = false)) ->
              (code = 200%Z -> List.length sent = 1%nat) ->
              forall body',
                dependenciesEndpoint w reqBody calls
                = (Return {| statusCode := code; body := body' |}, calls ++ sent) ->
                exists response sent0,
                  dependenciesEndpoint w reqBody calls = (Return response, calls ++ sent0)
                  /\ (statusCode response = 200%Z \/ statusCode response = 400%Z
                      \/ statusCode response = 500%Z)
                  /\ (List.length sent0 <= 1)%nat
                  /\ (forall dependencies',
                        Get reqBody (js "dependencies") = Return dependencies' ->
                        (statusCode response = 400%Z <-> isArray dependencies' = false))
                  /\ (statusCode response = 200%Z -> List.length sent0 = 1%nat)).
  { intros code sent H1 H2 H3 H4 body' Hrun.
    exists {| statusCode := code; body := body' |}, sent.
    repeat split; try assumption; apply H3; assumption. }
  destruct (Get reqBody (js "dependencies")) as [d|e] eqn:Hg.
  2:{ eapply (Hcases 500%Z []); auto; try discriminate.
      rewrite app_nil_r.
      unfold dependenciesEndpoint, tryCatch, bindT, settle, resolve. rewrite Hg.
      reflexivity. }
  destruct (isArray d) eqn:Ha.
  2:{ eapply (Hcases 400%Z []); auto; try discriminate.
      - intros d' [= <-]. now split.
      - rewrite app_nil_r.
        unfold dependenciesEndpoint, tryCatch, bindT, settle, resolve.
        rewrite Hg, Ha. cbn [negb]. rewrite orb_true_r. reflexivity. }
  destruct d as [| | | | |items|]; try discriminate.
  assert (Harr : forall d, Return (JArray items) = Return d ->
                           (500%Z = 400%Z <-> isArray d = false)
                           /\ (200%Z = 400%Z <-> isArray d = false)).
  { intros d' [= <-]. split; split; discriminate. }
  destruct (dependencyString (JArray items)) as [rendered|e] eqn:Hr.
  2:{ eapply (Hcases 500%Z []); auto; try discriminate.
      - intros d' Hd'. apply (Harr d' Hd').
      - rewrite app_nil_r.
        apply (dependenciesEndpoint_render_failure w reqBody calls Hg Hr). }
  pose proof (dependenciesEndpoint_run w reqBody calls Hg Hr) as Hrun.
  destruct (dependencyCheckChain_calls w
              (JObject [(js "dependencies", JString rendered)]) calls)
    as (sent & Hs & Hk & Hn).
  destruct (dependencyCheckChain w _ calls) as [[verdict|e] calls'] eqn:Ec;
    cbn [snd fst] in Hs, Hn; subst calls'; cbv zeta in Hrun.
  - assert (Hone : List.length sent = 1%nat).
    { destruct Hk as [-> | (p & -> & _)];
        [now destruct (Hn verdict eq_refl) | reflexivity]. }
    destruct (String_eqb verdict DEPENDENCIES_HEALTHY);
      [eapply (Hcases 200%Z sent) | eapply (Hcases 500%Z sent)];
      try exact Hrun; auto; try lia; try discriminate;
      intros d' Hd'; apply (Harr d' Hd').
  - eapply (Hcases 500%Z sent); try exact Hrun; auto; try discriminate.
    + destruct Hk as [-> | (p & -> & _)]; cbn; lia.
    + intros d' Hd'. apply (Harr d' Hd').
Qed.

(** X9.  When the model answers the dependency endpoint with a text
    that is none of the three literals, the endpoint answers 500 with
    status "error", and the [error] field of the response carries the
    raw answer of the model. *)
Theorem dependenciesEndpoint_invalid_answer (w : World) (reqBody : JsValue)
    (items : list JsValue) (rendered prompt answer : jsstring)
    (e : JsError) (calls : list jsstring) :
  Get reqBody (js "dependencies") = Return (JArray items) ->
  dependencyString (JArray items) = Return rendered ->
  format w dependencyCheckPrompt (JObject [(js "dependencies", JString rendered)])
  = Return prompt ->
  llm w prompt = Return answer ->
  validateDependencyResponse answer = Throw e ->
  dependenciesEndpoint w reqBody calls
  = (Return
       {| statusCode := 500%Z;
          body := JObject
            [(js "status", JString (js "error"));
             (js "message", JString (js "Dependency check system failure"));
             (js "error",
              JString (js "Invalid dependency check response: " ++ answer));
             (js "timestamp", JString (toISOString (now w)))] |},
     calls ++ [prompt]).
Proof.
  intros Hg Hr Hf Hl Hv.
  rewrite (dependenciesEndpoint_run w reqBody calls Hg Hr).
  rewrite dependencyCheckChain_run, Hf, Hl, Hv.
  destruct (validateDependencyResponse_cases answer) as [[E _] | [E _]];
    rewrite E in Hv; [discriminate|].
  injection Hv as <-. reflexivity.
Qed.

(** X10.  Entries of the dependency array that are not objects: a
    [null] entry makes the rendering fail, so the endpoint answers 500
    "error" and the model is not called; an entry that is a boolean, a
    number, a string or an array is not refused but rendered as
    "- undefined: undefined (Non-Critical)". *)
Theorem dependencyLine_non_object (w : World) (reqBody : JsValue)
    (items : list JsValue) (calls : list jsstring) :
  (forall v,
     match v with
     | JBool _ | JNumber _ | JString _ | JArray _ =>
         dependencyLine v = Return (js "- undefined: undefined (Non-Critical)")
     | JNull | JUndefined =>
         dependencyLine v
         = Throw (TypeError (faultMessage (ReadOfNullish v (js "name"))))
     | JObject _ => True
     end)
  /\ (In JNull items ->
      Get reqBody (js "dependencies") = Return (JArray items) ->
      exists response,
        dependenciesEndpoint w reqBody calls = (Return response, calls)
        /\ statusCode response = 500%Z
        /\ Get (body response) (js "status") = Return (JString (js "error"))).
Proof.
  split.
  - intros v. destruct v; first [reflexivity | exact I].
  - intros Hin Hg. destruct (mapItems_null items Hin) as [e He].
    assert (Hr : dependencyString (JArray items) = Throw e).
    { unfold dependencyString, Array_map. now rewrite He. }
    rewrite (dependenciesEndpoint_render_failure w reqBody calls Hg Hr).
    eexists. split; [reflexivity|]. split; reflexivity.
Qed.

(** ** The basic endpoint *)

(** X11.  The basic endpoint always answers, with 200 or 500, after at
    most one call of the model.  It answers 200 with status "healthy"
    exactly when the health analysis of the simulated metrics returns
    HEALTHY and 500 with status "unhealthy" when it returns UNHEALTHY,
    echoing in both cases the metrics it analysed; when the analysis
    fails it answers 500 with status "error" and the message of the
    failure. *)
Theorem basicEndpoint_answers (w : World) (random : nat -> spec_float)
    (calls : list jsstring) :
  exists response,
    basicEndpoint w random calls
    = (Return response, snd (healthAnalysisChain w (simulatedMetrics random) calls))
    /\ (statusCode response = 200%Z \/ statusCode response = 500%Z)
    /\ (statusCode response = 200%Z
        <-> fst (healthAnalysisChain w (simulatedMetrics random) calls) = Return HEALTHY)
    /\ (statusCode response = 200%Z ->
        Get (body response) (js "status") = Return (JString (js "healthy")))
    /\ (fst (healthAnalysisChain w (simulatedMetrics random) calls) = Return UNHEALTHY ->
        statusCode response = 500%Z
        /\ Get (body response) (js "status") = Return (JString (js "unhealthy")))
    /\ (forall verdict,
          fst (healthAnalysisChain w (simulatedMetrics random) calls) = Return verdict ->
          Get (body response) (js "metrics") = Return (simulatedMetrics random))
    /\ (forall e,
          fst (healthAnalysisChain w (simulatedMetrics random) calls) = Throw e ->
          statusCode response = 500%Z
          /\ Get (body response) (js "status") = Return (JString (js "error"))
          /\ Get (body response) (js "error") = Return (JString (errorMessage e))).
Proof.
  unfold basicEndpoint, tryCatch, bindT, resolve. cbv zeta.
  destruct (healthAnalysisChain w (simulatedMetrics random) calls)
    as [[verdict|e] calls'] eqn:Erun; cbn [fst snd].
  - destruct (healthAnalysisChain_verdict _ _ _ Erun) as [-> | ->].
    + eexists. split; [reflexivity|]. cbn [statusCode body].
      repeat split; intros; auto; try discriminate.
    + eexists. split; [reflexivity|]. cbn [statusCode body].
      repeat split; intros; auto; try discriminate.
  - eexists. split; [reflexivity|]. cbn [statusCode body].
    repeat split; intros; auto; try discriminate;
      match goal with H : Throw _ = Throw _ |- _ => injection H as <- end;
      reflexivity.
Qed.

(** ** The comprehensive endpoint *)

Lemma orDefault_supplied (v : JsValue) (dflt : nat -> JsValue * nat) (n : nat) :
  v <> JUndefined -> orDefault v dflt n = (v, n).
Proof. destruct v; try reflexivity. intros H. now destruct H. Qed.

Lemma orDefault_defined (v : JsValue) (dflt : nat -> JsValue * nat) (n : nat) :
  (forall k, fst (dflt k) <> JUndefined) ->
  fst (orDefault v dflt n) <> JUndefined
  /\ (v <> JUndefined -> orDefault v dflt n = (v, n)).
Proof.
  intros Hd. destruct v; cbn [orDefault]; split; try discriminate;
    try reflexivity; try apply Hd. intros H. now destruct H.
Qed.

(** The input the endpoint builds, field by field. *)
Lemma healthCheckInput_fields (random : nat -> spec_float) (reqBody input : JsValue) :
  healthCheckInput random reqBody = Return input ->
  exists v1 v2 v3 v4 v5 v6 n1 n2 n3 n4 n5 x1 x2 x3 x4 x5 x6 n6,
    Get reqBody (js "cpuUsage") = Return v1
    /\ Get reqBody (js "memoryUsage") = Return v2
    /\ Get reqBody (js "diskUsage") = Return v3
    /\ Get reqBody (js "responseTime") = Return v4
    /\ Get reqBody (js "errorRate") = Return v5
    /\ Get reqBody (js "dependencies") = Return v6
    /\ orDefault v1 (randomMetric random 100) 0 = (x1, n1)
    /\ orDefault v2 (randomMetric random 100) n1 = (x2, n2)
    /\ orDefault v3 (randomMetric random 100) n2 = (x3, n3)
    /\ orDefault v4 (randomMetric random 3000) n3 = (x4, n4)
    /\ orDefault v5 (randomMetric random 10) n4 = (x5, n5)
    /\ orDefault v6 (defaultDependencies random) n5 = (x6, n6)
    /\ input = JObject [(js "cpuUsage", x1); (js "memoryUsage", x2);
                        (js "diskUsage", x3); (js "responseTime", x4);
                        (js "errorRate", x5); (js "dependencies", x6)].
Proof.
  unfold healthCheckInput. intros H.
  destruct (Get reqBody (js "cpuUsage")) as [v1|]; [|discriminate]. cbn [bindO] in H.
  destruct (orDefault v1 (randomMetric random 100) 0) as [x1 n1] eqn:E1.
  destruct (Get reqBody (js "memoryUsage")) as [v2|]; [|discriminate]. cbn [bindO] in H.
  destruct (orDefault v2 (randomMetric random 100) n1) as [x2 n2] eqn:E2.
  destruct (Get reqBody (js "diskUsage")) as [v3|]; [|discriminate]. cbn [bindO] in H.
  destruct (orDefault v3 (randomMetric random 100) n2) as [x3 n3] eqn:E3.
  destruct (Get reqBody (js "responseTime")) as [v4|]; [|discriminate]. cbn [bindO] in H.
  destruct (orDefault v4 (randomMetric random 3000) n3) as [x4 n4] eqn:E4.
  destruct (Get reqBody (js "errorRate")) as [v5|]; [|discriminate]. cbn [bindO] in H.
  destruct (orDefault v5 (randomMetric random 10) n4) as [x5 n5] eqn:E5.
  destruct (Get reqBody (js "dependencies")) as [v6|]; [|discriminate]. cbn [bindO] in H.
  destruct (orDefault v6 (defaultDependencies random) n5) as [x6 n6] eqn:E6.
  injection H as <-.
  exists v1, v2, v3, v4, v5, v6, n1, n2, n3, n4, n5, x1, x2, x3, x4, x5, x6, n6.
  repeat split; assumption.
Qed.

(** X12.  The input the comprehensive endpoint hands to the master
    chain has all six fields defined.  A field the request body
    supplies, [null] included, is passed on as it is: defaults replace
    only what is missing.  When the body supplies all six fields the
    input does not depend on the random numbers at all. *)
Theorem healthCheckInput_defaults (random : nat -> spec_float)
    (reqBody input : JsValue) :
  healthCheckInput random reqBody = Return input ->
  (forall key, In key inputKeys ->
     exists v, Get input key = Return v /\ v <> JUndefined)
  /\ (forall key v, In key inputKeys ->
        Get reqBody key = Return v -> v <> JUndefined ->
        Get input key = Return v)
  /\ ((forall key, In key inputKeys ->
         exists v, Get reqBody key = Return v /\ v <> JUndefined) ->
      forall random', healthCheckInput random' reqBody = Return input).
Proof.
  intros H.
  destruct (healthCheckInput_fields _ _ H)
    as (v1 & v2 & v3 & v4 & v5 & v6 & n1 & n2 & n3 & n4 & n5
        & x1 & x2 & x3 & x4 & x5 & x6 & n6
        & G1 & G2 & G3 & G4 & G5 & G6 & E1 & E2 & E3 & E4 & E5 & E6 & ->).
  assert (Hm : forall factor k, fst (randomMetric random factor k) <> JUndefined)
    by (intros; discriminate).
  assert (Hd : forall k, fst (defaultDependencies random k) <> JUndefined)
    by (intros; discriminate).
  pose proof (orDefault_defined v1 (randomMetric random 100) 0 (Hm _)) as [D1 S1].
  pose proof (orDefault_defined v2 (randomMetric random 100) n1 (Hm _)) as [D2 S2].
  pose proof (orDefault_defined v3 (randomMetric random 100) n2 (Hm _)) as [D3 S3].
  pose proof (orDefault_defined v4 (randomMetric random 3000) n3 (Hm _)) as [D4 S4].
  pose proof (orDefault_defined v5 (randomMetric random 10) n4 (Hm _)) as [D5 S5].
  pose proof (orDefault_defined v6 (defaultDependencies random) n5 Hd) as [D6 S6].
  rewrite E1 in D1, S1. rewrite E2 in D2, S2. rewrite E3 in D3, S3.
  rewrite E4 in D4, S4. rewrite E5 in D5, S5. rewrite E6 in D6, S6.
  cbn [fst] in D1, D2, D3, D4, D5, D6.
  split; [|split].
  - intros key Hin. unfold inputKeys in Hin. cbn [In] in Hin.
    destruct Hin as [<- | [<- | [<- | [<- | [<- | [<- | []]]]]]];
      eexists; (split; [reflexivity | assumption]).
  - intros key v Hin Hg Hv. unfold inputKeys in Hin. cbn [In] in Hin.
    destruct Hin as [<- | [<- | [<- | [<- | [<- | [<- | []]]]]]];
      match goal with
      | G : Get reqBody ?k = Return ?u, Hg : Get reqBody ?k = Return v |- _ =>
          rewrite G in Hg; injection Hg as ->
      end.
    + specialize (S1 Hv). injection S1 as -> _. reflexivity.
    + specialize (S2 Hv). injection S2 as -> _. reflexivity.
    + specialize (S3 Hv). injection S3 as -> _. reflexivity.
    + specialize (S4 Hv). injection S4 as -> _. reflexivity.
    + specialize (S5 Hv). injection S5 as -> _. reflexivity.
    + specialize (S6 Hv). injection S6 as -> _. reflexivity.
  - intros Hall random'.
    assert (Hk : forall key u, In key inputKeys -> Get reqBody key = Return u ->
                               u <> JUndefined).
    { intros key u Hin Hu. destruct (Hall key Hin) as (u' & Hu' & Hne). congruence. }
    assert (N1 : v1 <> JUndefined) by (apply (Hk (js "cpuUsage")); unfold inputKeys; cbn [In]; auto).
    assert (N2 : v2 <> JUndefined) by (apply (Hk (js "memoryUsage")); unfold inputKeys; cbn [In]; auto 10).
    assert (N3 : v3 <> JUndefined) by (apply (Hk (js "diskUsage")); unfold inputKeys; cbn [In]; auto 10).
    assert (N4 : v4 <> JUndefined) by (apply (Hk (js "responseTime")); unfold inputKeys; cbn [In]; auto 10).
    assert (N5 : v5 <> JUndefined) by (apply (Hk (js "errorRate")); unfold inputKeys; cbn [In]; auto 10).
    assert (N6 : v6 <> JUndefined)
      by (apply (Hk (js "dependencies")); unfold inputKeys; cbn [In]; auto 10).
    specialize (S1 N1). specialize (S2 N2). specialize (S3 N3).
    specialize (S4 N4). specialize (S5 N5). specialize (S6 N6).
    injection S1 as -> ->. injection S2 as -> ->. injection S3 as -> ->.
    injection S4 as -> ->. injection S5 as -> ->. injection S6 as -> ->.
    unfold healthCheckInput. rewrite G1, G2, G3, G4, G5, G6. cbn [bindO].
    rewrite (orDefault_supplied (randomMetric random' 100) 0 N1).
    rewrite (orDefault_supplied (randomMetric random' 100) 0 N2).
    rewrite (orDefault_supplied (randomMetric random' 100) 0 N3).
    rewrite (orDefault_supplied (randomMetric random' 3000) 0 N4).
    rewrite (orDefault_supplied (randomMetric random' 10) 0 N5).
    rewrite (orDefault_supplied (defaultDependencies random') 0 N6).
    reflexivity.
Qed.

Lemma prepareData_succeeds (input dependencies' : JsValue) (rendered : jsstring) :
  Get input (js "dependencies") = Return dependencies' ->
  dependencyString dependencies' = Return rendered ->
  exists systemMetrics, prepareData input = Return (systemMetrics, rendered, input).
Proof.
  intros Hg Hr. unfold prepareData.
  destruct (@Get_after_Get input _ (js "cpuUsage") _ Hg) as [v1 ->].
  destruct (@Get_after_Get input _ (js "memoryUsage") _ Hg) as [v2 ->].
  destruct (@Get_after_Get input _ (js "diskUsage") _ Hg) as [v3 ->].
  destruct (@Get_after_Get input _ (js "responseTime") _ Hg) as [v4 ->].
  destruct (@Get_after_Get input _ (js "errorRate") _ Hg) as [v5 ->].
  rewrite Hg. cbn [bindO]. rewrite Hr. cbn [bindO]. now eexists.
Qed.

Lemma healthCheckInput_total (random : nat -> spec_float) (reqBody : JsValue)
    (key : jsstring) (v : JsValue) :
  Get reqBody key = Return v ->
  exists input, healthCheckInput random reqBody = Return input.
Proof.
  intros Hg. unfold healthCheckInput.
  destruct (@Get_after_Get reqBody _ (js "cpuUsage") _ Hg) as [v1 ->].
  destruct (@Get_after_Get reqBody _ (js "memoryUsage") _ Hg) as [v2 ->].
  destruct (@Get_after_Get reqBody _ (js "diskUsage") _ Hg) as [v3 ->].
  destruct (@Get_after_Get reqBody _ (js "responseTime") _ Hg) as [v4 ->].
  destruct (@Get_after_Get reqBody _ (js "errorRate") _ Hg) as [v5 ->].
  destruct (@Get_after_Get reqBody _ (js "dependencies") _ Hg) as [v6 ->].
  cbn [bindO].
  destruct (orDefault v1 _ 0) as [x1 n1]. destruct (orDefault v2 _ n1) as [x2 n2].
  destruct (orDefault v3 _ n2) as [x3 n3]. destruct (orDefault v4 _ n3) as [x4 n4].
  destruct (orDefault v5 _ n4) as [x5 n5]. destruct (orDefault v6 _ n5) as [x6 n6].
  now eexists.
Qed.

Lemma conditionalResponseChain_code (r : ComprehensiveResult) :
  httpStatus (conditionalResponseChain r)
  = if String_eqb (status r) HEALTHY then 200%Z else 500%Z.
Proof.
  unfold conditionalResponseChain.
  destruct (String_eqb (status r) HEALTHY); reflexivity.
Qed.

Lemma conditionalResponseChain_details (r : ComprehensiveResult) :
  details (conditionalResponseChain r) = r.
Proof.
  unfold conditionalResponseChain.
  destruct (String_eqb (status r) HEALTHY); reflexivity.
Qed.

Lemma masterHealthCheckChain_run' (w : World) (input : JsValue) (calls : list jsstring) :
  masterHealthCheckChain w input calls
  = match comprehensiveHealthChain w input calls with
    | (Return r, calls') => (Return (conditionalResponseChain r), calls')
    | (Throw e, calls') => (Throw e, calls')
    end.
Proof. reflexivity. Qed.

(** X13.  The comprehensive endpoint always answers, with 200 or 500.
    When the master chain returns a response, the endpoint sends that
    response under its own status code, which is 200 exactly when the
    overall status is HEALTHY; when the body cannot be read or the
    master chain fails, it answers 500 with status "error" and the
    message of the failure. *)
Theorem comprehensiveEndpoint_answers (w : World) (random : nat -> spec_float)
    (reqBody : JsValue) (calls : list jsstring) :
  exists response,
    fst (comprehensiveEndpoint w random reqBody calls) = Return response
    /\ (statusCode response = 200%Z \/ statusCode response = 500%Z)
    /\ (forall e,
          healthCheckInput random reqBody = Throw e ->
          comprehensiveEndpoint w random reqBody calls
          = (Return
               {| statusCode := 500%Z;
                  body := JObject
                    [(js "status", JString (js "error"));
                     (js "message",
                      JString (js "Comprehensive health check system failure"));
                     (js "error", JString (errorMessage e));
                     (js "timestamp", JString (toISOString (now w)))] |}, calls))
    /\ (forall input,
          healthCheckInput random reqBody = Return input ->
          snd (comprehensiveEndpoint w random reqBody calls)
          = snd (masterHealthCheckChain w input calls)
          /\ (forall result,
                fst (masterHealthCheckChain w input calls) = Return result ->
                statusCode response = httpStatus result
                /\ body response = responseValue result
                /\ (statusCode response = 200%Z
                    <-> status (details result) = HEALTHY))
          /\ (forall e,
                fst (masterHealthCheckChain w input calls) = Throw e ->
                statusCode response = 500%Z
                /\ Get (body response) (js "status") = Return (JString (js "error"))
                /\ Get (body response) (js "error")
                   = Return (JString (errorMessage e)))).
Proof.
  unfold comprehensiveEndpoint, tryCatch, bindT, settle, resolve.
  destruct (healthCheckInput random reqBody) as [input|e0] eqn:Ei.
  2:{ eexists. split; [reflexivity|]. cbn [statusCode].
      split; [now right|]. split; [|intros; discriminate].
      intros e [= <-]. reflexivity. }
  rewrite masterHealthCheckChain_run'.
  destruct (comprehensiveHealthChain w input calls) as [[r|e] calls'] eqn:Erun.
  - eexists. split; [reflexivity|]. cbn [statusCode body fst snd].
    rewrite ?conditionalResponseChain_code, ?conditionalResponseChain_details.
    pose proof HEALTHY_neq_UNHEALTHY as Hne.
    split; [destruct (String_eqb (status r) HEALTHY); auto|].
    split; [intros; discriminate|].
    intros input' [= <-]. rewrite masterHealthCheckChain_run', Erun.
    cbn [fst snd]. split; [reflexivity|]. split; [|intros; discriminate].
    intros result [= <-].
    rewrite ?conditionalResponseChain_code, ?conditionalResponseChain_details.
    split; [reflexivity|]. split; [reflexivity|].
    destruct (String_eqb_spec (status r) HEALTHY); split; intros;
      try reflexivity; try assumption; try discriminate; contradiction.
  - eexists. split; [reflexivity|]. cbn [statusCode body fst snd].
    split; [now right|]. split; [intros; discriminate|].
    intros input' [= <-]. rewrite masterHealthCheckChain_run', Erun.
    cbn [fst snd]. split; [reflexivity|]. split; [intros; discriminate|].
    intros e' [= <-]. repeat split.
Qed.

(** X14.  A [dependencies] field that is supplied but is not an array
    ([null], a string, an object, ...) is not replaced by the default:
    the comprehensive endpoint answers 500 with status "error" and has
    not called the model, where the dependency endpoint answers 400 to
    the same field. *)
Theorem comprehensiveEndpoint_requires_array (w : World)
    (random : nat -> spec_float) (reqBody dependencies' : JsValue)
    (calls : list jsstring) :
  Get reqBody (js "dependencies") = Return dependencies' ->
  dependencies' <> JUndefined ->
  isArray dependencies' = false ->
  (exists response,
     comprehensiveEndpoint w random reqBody calls = (Return response, calls)
     /\ statusCode response = 500%Z
     /\ Get (body response) (js "status") = Return (JString (js "error")))
  /\ (exists response,
        dependenciesEndpoint w reqBody calls = (Return response, calls)
        /\ statusCode response = 400%Z).
Proof.
  intros Hg Hne Ha. split.
  - destruct (@healthCheckInput_total random reqBody _ _ Hg) as [input Hi].
    destruct (healthCheckInput_fields _ _ Hi)
      as (v1 & v2 & v3 & v4 & v5 & v6 & n1 & n2 & n3 & n4 & n5
          & x1 & x2 & x3 & x4 & x5 & x6 & n6
          & _ & _ & _ & _ & _ & G6 & _ & _ & _ & _ & _ & E6 & Hin).
    rewrite Hg in G6. injection G6 as <-.
    rewrite (orDefault_supplied _ _ Hne) in E6. injection E6 as <- _.
    assert (Hd : Get input (js "dependencies") = Return dependencies')
      by (rewrite Hin; reflexivity).
    destruct (prepareData_requires_array _ Hd Ha) as (fault' & Hp & _).
    unfold comprehensiveEndpoint, tryCatch, bindT, settle, resolve.
    rewrite Hi. unfold masterHealthCheckChain, comprehensiveHealthChain, bindT, settle.
    rewrite Hp. eexists. split; [reflexivity|]. split; reflexivity.
  - unfold dependenciesEndpoint, tryCatch, bindT, settle, resolve.
    rewrite Hg, Ha. cbn [negb]. rewrite orb_true_r.
    eexists. split; reflexivity.
Qed.

(** X15.  For a request body without [dependencies], the endpoint
    supplies three services, "Database" and "Cache" critical and up and
    "External API" not critical, down exactly when the random number
    drawn for it is above 0.7; this default always renders, so step 1
    of the chain cannot fail on it. *)
Theorem healthCheckInput_default_dependencies (random : nat -> spec_float)
    (reqBody : JsValue) :
  Get reqBody (js "dependencies") = Return JUndefined ->
  exists input k,
    healthCheckInput random reqBody = Return input
    /\ (k <= 5)%nat
    /\ Get input (js "dependencies") = Return (fst (defaultDependencies random k))
    /\ dependencyString (fst (defaultDependencies random k))
       = Return (js "- Database: up (Critical)" ++ newline
                   ++ js "- Cache: up (Critical)" ++ newline
                   ++ js "- External API: "
                   ++ (if SFltb pointSeven (random k) then js "down" else js "up")
                   ++ js " (Non-Critical)")
    /\ exists systemMetrics rendered,
         prepareData input = Return (systemMetrics, rendered, input).
Proof.
  intros Hg.
  destruct (@healthCheckInput_total random reqBody _ _ Hg) as [input Hi].
  destruct (healthCheckInput_fields _ _ Hi)
    as (v1 & v2 & v3 & v4 & v5 & v6 & n1 & n2 & n3 & n4 & n5
        & x1 & x2 & x3 & x4 & x5 & x6 & n6
        & _ & _ & _ & _ & _ & G6 & E1 & E2 & E3 & E4 & E5 & E6 & Hin).
  rewrite Hg in G6. injection G6 as <-.
  assert (Hstep : forall v factor n x n', orDefault v (randomMetric random factor) n = (x, n') ->
                                          (n' <= S n)%nat).
  { intros v factor n x n' H. destruct v; cbn in H; injection H as _ <-; lia. }
  apply Hstep in E1, E2, E3, E4, E5.
  cbn [orDefault] in E6. injection E6 as <- _.
  exists input, n5. split; [exact Hi|]. split; [lia|].
  assert (Hrender : forall k,
             dependencyString (fst (defaultDependencies random k))
             = Return (js "- Database: up (Critical)" ++ newline
                         ++ js "- Cache: up (Critical)" ++ newline
                         ++ js "- External API: "
                         ++ (if SFltb pointSeven (random k) then js "down" else js "up")
                         ++ js " (Non-Critical)")).
  { intros k. cbn [defaultDependencies fst].
    destruct (SFltb pointSeven (random k)); reflexivity. }
  assert (Hd : Get input (js "dependencies")
               = Return (fst (defaultDependencies random n5)))
    by (rewrite Hin; reflexivity).
  split; [exact Hd|]. split; [apply Hrender|].
  destruct (prepareData_succeeds _ Hd (Hrender n5)) as [systemMetrics Hp].
  exists systemMetrics. eexists. exact Hp.
Qed.

(** ** The global error handler and the chain information *)

(** X16.  The global error handler always answers 500, and only in the
    "development" environment does the answer depend on the error:
    elsewhere the message of the error is never disclosed. *)
Theorem globalErrorHandler_discloses_nothing (nodeEnv : option jsstring)
    (err err' : JsError) :
  statusCode (globalErrorHandler nodeEnv err) = 500%Z
  /\ (nodeEnv <> Some (js "development") ->
      globalErrorHandler nodeEnv err = globalErrorHandler nodeEnv err')
  /\ (nodeEnv = Some (js "development") ->
      Get (body (globalErrorHandler nodeEnv err)) (js "error")
      = Return (JString (errorMessage err))).
Proof.
  split; [reflexivity|]. split.
  - intros Hne. unfold globalErrorHandler. destruct nodeEnv as [env|]; [|reflexivity].
    destruct (String_eqb_spec env (js "development")) as [-> | _];
      [now destruct Hne | reflexivity].
  - intros ->. reflexivity.
Qed.

(** X17.  The outputs that the chain information endpoint advertises
    for the two check chains are exactly the verdicts the validators
    can return. *)
Theorem chainsInformation_outputs :
  exists healthOutputs dependencyOutputs,
    (chains <- Get chainsInformation (js "availableChains") ;;
     chain <- Get chains (js "healthAnalysis") ;;
     Get chain (js "outputs"))
    = Return (JArray (List.map JString healthOutputs))
    /\ (chains <- Get chainsInformation (js "availableChains") ;;
        chain <- Get chains (js "dependencyCheck") ;;
        Get chain (js "outputs"))
       = Return (JArray (List.map JString dependencyOutputs))
    /\ (forall verdict,
          In verdict healthOutputs
          <-> exists response, validateHealthResponse response = Return verdict)
    /\ (forall verdict,
          In verdict dependencyOutputs
          <-> exists response, validateDependencyResponse response = Return verdict).
Proof.
  exists [HEALTHY; UNHEALTHY],
    [DEPENDENCIES_HEALTHY; PARTIAL_DEPENDENCY; DEPENDENCY_FAILURE].
  split; [reflexivity|]. split; [reflexivity|]. split; intros verdict; split.
  - intros [<- | [<- | []]]; [exists HEALTHY | exists UNHEALTHY]; reflexivity.
  - intros [response H].
    destruct (validateHealthResponse_cases response) as [[E Hv] | [E _]];
      rewrite E in H; [|discriminate].
    injection H as <-. destruct Hv as [-> | ->]; cbn; auto.
  - intros [<- | [<- | [<- | []]]];
      [exists DEPENDENCIES_HEALTHY | exists PARTIAL_DEPENDENCY
       | exists DEPENDENCY_FAILURE]; reflexivity.
  - intros [response H].
    destruct (validateDependencyResponse_cases response) as [[E Hv] | [E _]];
      rewrite E in H; [|discriminate].
    injection H as <-. destruct Hv as [-> | [-> | ->]]; cbn; auto.
Qed.

End Engine.

(** * The properties on the test doubles

    Each statement below is one of the theorems above at a concrete
    request, with the plain engine and a scripted world. *)

Lemma overall_status_rule_witness :
  exists r,
    applyBusinessLogic plainFault
      (scriptedWorld (Return (js "HEALTHY")) (Return (js "PARTIAL_DEPENDENCY")))
      (HEALTHY, PARTIAL_DEPENDENCY, exampleInput) = Return r
    /\ status r = HEALTHY
    /\ reasoning r = [js "System metrics are within healthy ranges";
                      js "Some non-critical dependencies are down"].
Proof.
  eexists. split; [reflexivity|]. split; [|reflexivity].
  pose proof (overall_status_rule plainUpper plainNumber plainFault
                (scriptedWorld (Return (js "HEALTHY"))
                   (Return (js "PARTIAL_DEPENDENCY")))) as (_ & _ & H & _).
  refine (proj2 (proj2 (proj2 (H HEALTHY PARTIAL_DEPENDENCY exampleInput _ _))) _ _);
    reflexivity.
Defined.

Lemma comprehensiveHealthChain_fail_fast_witness :
  prepareData plainNumber plainFault exampleInput
  = Return (exampleMetrics, js "- DB: up (Critical)", exampleInput)
  /\ fst (healthAnalysisChain plainUpper
            (scriptedWorld (Return (js "maybe")) (Return (js "DEPENDENCIES_HEALTHY")))
            exampleMetrics [])
     = Throw (Error (js "Invalid health check response: maybe"))
  /\ exists e,
       fst (comprehensiveHealthChain plainUpper plainNumber plainFault
              (scriptedWorld (Return (js "maybe")) (Return (js "DEPENDENCIES_HEALTHY")))
              exampleInput [])
       = Throw (Error (js "Health check failed: " ++ errorMessage e)).
Proof.
  split; [reflexivity|]. split; [reflexivity|].
  destruct (comprehensiveHealthChain_fail_fast plainUpper plainNumber plainFault
              (scriptedWorld (Return (js "maybe")) (Return (js "DEPENDENCIES_HEALTHY")))
              (input := exampleInput) [] eq_refl
              (or_introl (ex_intro _ _ eq_refl))) as (_ & e & _ & He & _).
  exists e. exact He.
Defined.

Lemma validateHealthResponse_spec_witness :
  validateHealthResponse plainUpper (js "  HeAlThY" ++ newline) = Return HEALTHY.
Proof.
  refine (proj2 (proj2 (proj2 (validateHealthResponse_spec plainUpper _)))
            (js "  ") (js "HeAlThY") newline eq_refl eq_refl _ eq_refl).
  repeat (constructor; [first [left; reflexivity | right; reflexivity]|]).
  constructor.
Defined.

Lemma conditionalResponseChain_spec_witness :
  httpStatus (conditionalResponseChain failedResult) = 500%Z
  /\ recommendations (conditionalResponseChain failedResult)
     = [resourceRecommendation; dependencyRecommendation].
Proof.
  pose proof (proj2 (conditionalResponseChain_spec failedResult) eq_refl)
    as (Hcode & _ & _ & _ & _ & _ & Hboth & _).
  split; [exact Hcode | exact (Hboth eq_refl eq_refl)].
Defined.

Lemma masterHealthCheckChain_examples_witness :
  (exists response,
     masterHealthCheckChain plainUpper plainNumber plainFault
       (scriptedWorld (Return (js "HEALTHY")) (Return (js "DEPENDENCIES_HEALTHY")))
       exampleInput []
     = (Return response, [healthAnalysisPrompt; dependencyCheckPrompt])
     /\ status (details response) = js "HEALTHY"
     /\ httpStatus response = 200%Z
     /\ recommendations response = [])
  /\ (exists response,
        masterHealthCheckChain plainUpper plainNumber plainFault
          (scriptedWorld (Return (js "UNHEALTHY")) (Return (js "DEPENDENCY_FAILURE")))
          exampleInput []
        = (Return response, [healthAnalysisPrompt; dependencyCheckPrompt])
        /\ status (details response) = js "UNHEALTHY"
        /\ httpStatus response = 500%Z
        /\ recommendations response
           = [js "Check system resources and optimize performance";
              js "Investigate and restore critical service dependencies"]).
Proof.
  split.
  - exact (proj1 (masterHealthCheckChain_examples plainUpper plainNumber plainFault
                    (scriptedWorld (Return (js "HEALTHY"))
                       (Return (js "DEPENDENCIES_HEALTHY")))
                    [] eq_refl eq_refl) eq_refl eq_refl).
  - exact (proj2 (masterHealthCheckChain_examples plainUpper plainNumber plainFault
                    (scriptedWorld (Return (js "UNHEALTHY"))
                       (Return (js "DEPENDENCY_FAILURE")))
                    [] eq_refl eq_refl) eq_refl eq_refl).
Defined.

Lemma dependencyString_renders_witness :
  dependencyString plainNumber plainFault
    (JArray (List.map DependencyStatus.toValue sampleDependencies))
  = Return (js "- DB: up (Critical)
- Cache: degraded (Non-Critical)").
Proof.
  refine (proj1 (dependencyString_renders plainUpper plainNumber plainFault
                   (deps := sampleDependencies) _)).
  repeat constructor; apply toValue_represents.
Defined.

Lemma comprehensiveHealthChain_stamp_and_echo_witness :
  exists r,
    comprehensiveHealthChain plainUpper plainNumber plainFault
      (scriptedWorld (Return (js "HEALTHY")) (Return (js "DEPENDENCIES_HEALTHY")))
      exampleInput []
    = (Return r, [healthAnalysisPrompt; dependencyCheckPrompt])
    /\ timestamp r = js "2023-11-14T22:13:20.000Z"
    /\ cpu (checkedComponents r) = JNumber (numberOfZ 10)
    /\ responseTime (checkedComponents r) = JNumber (numberOfZ 50)
    /\ dependencies (checkedComponents r) = JNumber (numberOfZ 1).
Proof.
  eexists. split; [reflexivity|].
  pose proof (comprehensiveHealthChain_stamp_and_echo plainUpper plainNumber plainFault
                (scriptedWorld (Return (js "HEALTHY"))
                   (Return (js "DEPENDENCIES_HEALTHY")))
                exampleInput [] eq_refl)
    as (Ht & _).
  split; [exact Ht|]. repeat split.
Defined.

Lemma dependenciesEndpoint_requires_array_witness :
  dependenciesEndpoint plainUpper plainNumber plainFault
    (scriptedWorld (Return (js "HEALTHY")) (Return (js "DEPENDENCIES_HEALTHY")))
    (JObject [(js "dependencies", JString (js "DB: up"))]) []
  = (Return
       {| statusCode := 400%Z;
          body := JObject
            [(js "status", JString (js "error"));
             (js "message",
              JString (js "Dependencies array is required in request body"))] |},
     [])
  /\ fst (dependenciesEndpoint plainUpper plainNumber plainFault
            (scriptedWorld (Return (js "HEALTHY")) (Return (js "DEPENDENCIES_HEALTHY")))
            (JObject []) [])
     = Return
         {| statusCode := 400%Z;
            body := JObject
              [(js "status", JString (js "error"));
               (js "message",
                JString (js "Dependencies array is required in request body"))] |}.
Proof.
  split.
  - exact (dependenciesEndpoint_requires_array plainUpper plainNumber plainFault
             (scriptedWorld (Return (js "HEALTHY")) (Return (js "DEPENDENCIES_HEALTHY")))
             (JObject [(js "dependencies", JString (js "DB: up"))]) []
             eq_refl (or_intror eq_refl)).
  - exact (f_equal fst
             (dependenciesEndpoint_requires_array plainUpper plainNumber plainFault
                (scriptedWorld (Return (js "HEALTHY"))
                   (Return (js "DEPENDENCIES_HEALTHY")))
                (JObject []) [] eq_refl (or_introl eq_refl))).
Defined.

Lemma dependenciesEndpoint_status_witness :
  exists response,
    dependenciesEndpoint plainUpper plainNumber plainFault
      (scriptedWorld (Return (js "HEALTHY")) (Return (js " partial_dependency ")))
      (JObject [(js "dependencies", exampleDependencies)]) []
    = (Return response, [dependencyCheckPrompt])
    /\ statusCode response = 500%Z
    /\ Get plainFault (body response) (js "status") = Return (JString (js "unhealthy")).
Proof.
  destruct (dependenciesEndpoint_status plainUpper plainNumber plainFault
              (scriptedWorld (Return (js "HEALTHY"))
                 (Return (js " partial_dependency ")))
              (JObject [(js "dependencies", exampleDependencies)])
              (items := [JObject [(js "name", JString (js "DB"));
                                  (js "status", JString (js "up"));
                                  (js "critical", JBool true)]])
              (rendered := js "- DB: up (Critical)")
              (verdict := PARTIAL_DEPENDENCY) []
              (calls' := [dependencyCheckPrompt])
              eq_refl eq_refl eq_refl)
    as (response & Hrun & _ & _ & _ & Hpartial).
  exists response. split; [exact Hrun|].
  destruct (Hpartial eq_refl) as (Hcode & Hstatus & _).
  split; assumption.
Defined.

(** ** The further properties on the test doubles *)

Lemma validators_ignore_surrounding_whitespace_witness :
  validateHealthResponse plainUpper (js "  " ++ js "unhealthy" ++ newline)
  = Return UNHEALTHY.
Proof.
  refine (proj2 (proj1 (validators_ignore_surrounding_whitespace plainUpper
                          (js "  ") (js "unhealthy") newline UNHEALTHY
                          eq_refl eq_refl)) eq_refl).
Defined.

Lemma validators_ignore_ascii_case_witness :
  validateDependencyResponse plainUpper (js "Partial_Dependency")
  = Return PARTIAL_DEPENDENCY.
Proof.
  refine (proj2 (proj2 (@validators_ignore_ascii_case plainUpper
                          (js "Partial_Dependency") (js "PARTIAL_DEPENDENCY")
                          PARTIAL_DEPENDENCY _ _ eq_refl)) eq_refl);
    repeat (constructor; [reflexivity|]); constructor.
Defined.

Lemma reasoning_two_entries_witness :
  exists r,
    comprehensiveHealthChain plainUpper plainNumber plainFault
      (scriptedWorld (Return (js "HEALTHY")) (Return (js "DEPENDENCIES_HEALTHY")))
      exampleInput []
    = (Return r, [healthAnalysisPrompt; dependencyCheckPrompt])
    /\ reasoning r = [js "System metrics are within healthy ranges";
                      js "All dependencies are healthy"].
Proof.
  eexists. split; [reflexivity|].
  destruct (reasoning_two_entries plainUpper plainNumber plainFault
              (scriptedWorld (Return (js "HEALTHY"))
                 (Return (js "DEPENDENCIES_HEALTHY")))
              exampleInput [] eq_refl)
    as (onSystem & onDependencies & Hre & _ & Hs & _ & _ & Hd).
  rewrite Hre, (Hs eq_refl), (proj2 Hd eq_refl). reflexivity.
Defined.

Lemma comprehensiveHealthChain_requires_array_witness :
  comprehensiveHealthChain plainUpper plainNumber plainFault
    (scriptedWorld (Return (js "HEALTHY")) (Return (js "DEPENDENCIES_HEALTHY")))
    (JObject [(js "dependencies", JString (js "DB: up"))]) []
  = (Throw (TypeError (js "TypeError")), []).
Proof.
  destruct (comprehensiveHealthChain_requires_array plainUpper plainNumber plainFault
              (scriptedWorld (Return (js "HEALTHY"))
                 (Return (js "DEPENDENCIES_HEALTHY")))
              (JObject [(js "dependencies", JString (js "DB: up"))]) []
              eq_refl eq_refl) as (fault' & H & _).
  rewrite H. reflexivity.
Defined.

Lemma masterHealthCheckChain_consistent_witness :
  exists response,
    masterHealthCheckChain plainUpper plainNumber plainFault
      (scriptedWorld (Return (js "HEALTHY")) (Return (js "dependency_failure")))
      exampleInput []
    = (Return response, [healthAnalysisPrompt; dependencyCheckPrompt])
    /\ httpStatus response = 500%Z
    /\ recommendations response <> [].
Proof.
  eexists. split; [reflexivity|]. split; [reflexivity|].
  refine (proj2 (proj2 (proj2 (proj2
            (masterHealthCheckChain_consistent plainUpper plainNumber plainFault
               (scriptedWorld (Return (js "HEALTHY"))
                  (Return (js "dependency_failure")))
               exampleInput [] eq_refl)))) eq_refl).
Defined.

Lemma dependenciesEndpoint_invalid_answer_witness :
  dependenciesEndpoint plainUpper plainNumber plainFault
    (scriptedWorld (Return (js "HEALTHY")) (Return (js "maybe")))
    (JObject [(js "dependencies", exampleDependencies)]) []
  = (Return
       {| statusCode := 500%Z;
          body := JObject
            [(js "status", JString (js "error"));
             (js "message", JString (js "Dependency check system failure"));
             (js "error",
              JString (js "Invalid dependency check response: maybe"));
             (js "timestamp", JString (js "2023-11-14T22:13:20.000Z"))] |},
     [dependencyCheckPrompt]).
Proof.
  exact (@dependenciesEndpoint_invalid_answer plainUpper plainNumber plainFault
           (scriptedWorld (Return (js "HEALTHY")) (Return (js "maybe")))
           (JObject [(js "dependencies", exampleDependencies)])
           [JObject [(js "name", JString (js "DB"));
                     (js "status", JString (js "up"));
                     (js "critical", JBool true)]]
           (js "- DB: up (Critical)") dependencyCheckPrompt (js "maybe")
           (Error (js "Invalid dependency check response: maybe")) []
           eq_refl eq_refl eq_refl eq_refl eq_refl).
Defined.

Lemma healthCheckInput_defaults_witness :
  healthCheckInput plainFault halfRandom exampleInput = Return exampleInput
  /\ healthCheckInput plainFault zeroRandom exampleInput = Return exampleInput.
Proof.
  split; [reflexivity|].
  refine (proj2 (proj2 (@healthCheckInput_defaults plainFault halfRandom
                          exampleInput exampleInput eq_refl)) _ zeroRandom).
  intros key Hin. unfold inputKeys in Hin. cbn [In] in Hin.
  destruct Hin as [<- | [<- | [<- | [<- | [<- | [<- | []]]]]]];
    eexists; (split; [reflexivity | discriminate]).
Defined.

Lemma comprehensiveEndpoint_requires_array_witness :
  (exists response,
     comprehensiveEndpoint plainUpper plainNumber plainFault
       (scriptedWorld (Return (js "HEALTHY")) (Return (js "DEPENDENCIES_HEALTHY")))
       halfRandom (JObject [(js "dependencies", JNull)]) []
     = (Return response, [])
     /\ statusCode response = 500%Z
     /\ Get plainFault (body response) (js "status")
        = Return (JString (js "error")))
  /\ (exists response,
        dependenciesEndpoint plainUpper plainNumber plainFault
          (scriptedWorld (Return (js "HEALTHY")) (Return (js "DEPENDENCIES_HEALTHY")))
          (JObject [(js "dependencies", JNull)]) []
        = (Return response, [])
        /\ statusCode response = 400%Z).
Proof.
  refine (@comprehensiveEndpoint_requires_array plainUpper plainNumber plainFault
            (scriptedWorld (Return (js "HEALTHY"))
               (Return (js "DEPENDENCIES_HEALTHY")))
            halfRandom (JObject [(js "dependencies", JNull)]) JNull []
            eq_refl _ eq_refl).
  discriminate.
Defined.

Lemma healthCheckInput_default_dependencies_witness :
  exists input,
    healthCheckInput plainFault halfRandom (JObject []) = Return input
    /\ exists systemMetrics rendered,
         prepareData plainNumber plainFault input
         = Return (systemMetrics, rendered, input).
Proof.
  destruct (@healthCheckInput_default_dependencies plainNumber plainFault halfRandom
              (JObject []) eq_refl)
    as (input & k & Hi & _ & _ & _ & Hp).
  exists input. split; [exact Hi | exact Hp].
Defined.

Lemma globalErrorHandler_discloses_nothing_witness :
  globalErrorHandler (Some (js "production")) (Error (js "secret"))
  = globalErrorHandler (Some (js "production")) (Error (js "other")).
Proof.
  refine (proj1 (proj2 (globalErrorHandler_discloses_nothing plainFault
                          (Some (js "production"))
                          (Error (js "secret")) (Error (js "other")))) _).
  discriminate.
Defined.
